(** * Chart loader: verification of [internal/chart/v3/loader/load.go]

    The development embeds [MergeMaps], [LoadValues] and [LoadFiles] of the
    loader package and proves properties of the deep merge and of the
    assembly of a chart from a flat list of buffered files.

    Go maps are finite maps ([gmap]); [interface{}] values produced by the
    YAML decoder are the closed type [Value]; byte slices are [list byte];
    Go strings are [string] (sequences of bytes). *)

From Stdlib Require Import ZArith Lia Strings.Byte Strings.Ascii Strings.String.
From stdpp Require Import base option list strings gmap.

(** ** Configuration values *)

(** What [interface{}] holds after decoding a YAML document through JSON:
    null, a boolean, a number, a string, a sequence or a mapping with string
    keys ([map[string]interface{}]). The merge never looks inside a scalar,
    so numbers are kept as integers. *)
#[warnings="-register-all"]
Inductive Value :=
  | VNull
  | VBool (b : bool)
  | VNum (n : Z)
  | VStr (s : string)
  | VSeq (l : list Value)
  | VMap (m : gmap string Value).

(** The type assertion [v.(map[string]interface{})]. *)
Definition asMap (v : Value) : option (gmap string Value) :=
  match v with VMap m => Some m | _ => None end.

(** ** MergeMaps (load.go, lines 204-219) *)

(** One iteration of [for k, v := range b]: when [v] is a mapping and [out]
    already holds a mapping under [k], the two are merged recursively and the
    loop continues; in every other case [out[k] = v]. [rec v bv] stands for
    the recursive call [MergeMaps(bv, v)]. *)
Definition mergeStep (rec : Value -> gmap string Value -> gmap string Value)
    (k : string) (v : Value) (out : gmap string Value) : gmap string Value :=
  match v with
  | VMap _ =>
      match out !! k with
      | Some (VMap bv) => <[k := VMap (rec v bv)]> out
      | _ => <[k := v]> out
      end
  | _ => <[k := v]> out
  end.

(** The recursion descends into the values of the overlay, so the fixpoint is
    taken on the overlay as a [Value]; [out] starts as a copy of [a]. *)
Fixpoint mergeOverlay (b : Value) (a : gmap string Value) {struct b}
    : gmap string Value :=
  match b with
  | VMap bm =>
      map_fold (fun k v out =>
        match v with
        | VMap _ =>
            match out !! k with
            | Some (VMap bv) => <[k := VMap (mergeOverlay v bv)]> out
            | _ => <[k := v]> out
            end
        | _ => <[k := v]> out
        end) a bm
  | _ => a
  end.

Definition MergeMaps (a b : gmap string Value) : gmap string Value :=
  mergeOverlay (VMap b) a.

(** What the deep-merge contract prescribes for one key, given the entries of
    the base and of the overlay under that key. *)
Definition mergedEntry (x y : option Value) : option Value :=
  match y with
  | None => x
  | Some (VMap vm) =>
      match x with
      | Some (VMap am) => Some (VMap (MergeMaps am vm))
      | _ => Some (VMap vm)
      end
  | Some v => Some v
  end.

(** A size for values, used for induction through the nested maps. *)
Fixpoint vsize (v : Value) : nat :=
  match v with
  | VMap m => S (map_fold (fun _ x n => vsize x + n) 0 m)
  | VSeq l => S (foldr (fun x n => vsize x + n) 0 l)
  | _ => 1
  end.

(** ** Go string helpers used by the loader *)

(** [strings.HasPrefix(s, prefix)]. *)
Definition HasPrefix (s prefix : string) : bool := String.prefix prefix s.

(** [strings.TrimPrefix(s, prefix)]: [s] without the leading [prefix], or
    [s] itself when it does not start with [prefix]. *)
Definition TrimPrefix (s prefix : string) : string :=
  if HasPrefix s prefix
  then String.substring (String.length prefix)
         (String.length s - String.length prefix) s
  else s.

(** Cutting at the first ["/"]: the text before it and, when there is one,
    the text after it. *)
Fixpoint cutSlash (s : string) : string * option string :=
  match s with
  | EmptyString => (EmptyString, None)
  | String c rest =>
      if Ascii.eqb c "/"%char then (EmptyString, Some rest)
      else let '(h, t) := cutSlash rest in (String c h, t)
  end.

(** [strings.SplitN(s, "/", 2)]: one part when [s] has no ["/"], else the
    part before the first ["/"] and the remainder. *)
Definition SplitN2 (s : string) : list string :=
  match cutSlash s with
  | (h, None) => [h]
  | (h, Some t) => [h; t]
  end.

(** The scan of [filepath.Ext] (separator ["/"]), which walks the path from
    its end: it returns at the first dot, stops at a separator, or runs
    through the whole text. *)
Inductive ExtScan :=
  | FoundExt (ext : string)
  | HitSeparator
  | RanThrough.

Fixpoint scanExt (path : string) : ExtScan :=
  match path with
  | EmptyString => RanThrough
  | String c rest =>
      match scanExt rest with
      | FoundExt e => FoundExt e
      | HitSeparator => HitSeparator
      | RanThrough =>
          if Ascii.eqb c "/"%char then HitSeparator
          else if Ascii.eqb c "."%char then FoundExt (String c rest)
          else RanThrough
      end
  end.

(** [filepath.Ext(path)]. *)
Definition Ext (path : string) : string :=
  match scanExt path with
  | FoundExt e => e
  | _ => EmptyString
  end.

(** [strings.IndexAny(n, "_.") == 0]. *)
Definition startsWithUnderscoreOrDot (n : string) : bool :=
  match n with
  | String c _ => Ascii.eqb c "_"%char || Ascii.eqb c "."%char
  | EmptyString => false
  end.

(** ** Data model *)

(** [BufferedFile] (load.go, lines 69-72). *)
Record BufferedFile := mkBufferedFile {
  Name : string;
  Data : list byte
}.

(** [chart.File]: a named blob stored in the chart. *)
Record ChartFile := mkChartFile {
  FileName : string;
  FileData : list byte
}.

(** Modelled from the spec: the metadata record of the chart package, whose
    declaration is outside the loader file. The specification names the chart
    name, the version and the API version tag; the loader itself reads the
    name (through [Name()]) and the API version. *)
Record ChartMetadata := mkChartMetadata {
  MetaName : string;
  MetaVersion : string;
  APIVersion : string
}.

(** Modelled from the spec: the lock record of the chart package ("optional
    structured record parsed from Chart.lock"). The loader never reads its
    fields; the digest stands for its content. *)
Record ChartLock := mkChartLock {
  Digest : string
}.

(** [chart.Chart], with the fields [LoadFiles] writes. Pointers that may be
    nil ([Metadata], [Lock]) and the values map are options. *)
#[warnings="-register-all"]
Inductive Chart := mkChart {
  Raw : list ChartFile;
  Metadata : option ChartMetadata;
  Lock : option ChartLock;
  Templates : list ChartFile;
  Values : option (gmap string Value);
  Schema : list byte;
  Files : list ChartFile;
  Dependencies : list Chart
}.

(** [new(chart.Chart)]. *)
Definition newChart : Chart := mkChart [] None None [] None [] [] [].

(** [new(chart.Metadata)]. *)
Definition newMetadata : ChartMetadata := mkChartMetadata "" "" "".

(** Modelled from the spec: the default API version tag of this chart
    package ([chart.APIVersionV3]). *)
Definition APIVersionV3 : string := "v3".

Definition withRaw (c : Chart) (x : list ChartFile) : Chart :=
  mkChart x (Metadata c) (Lock c) (Templates c) (Values c) (Schema c)
    (Files c) (Dependencies c).
Definition withMetadata (c : Chart) (x : option ChartMetadata) : Chart :=
  mkChart (Raw c) x (Lock c) (Templates c) (Values c) (Schema c)
    (Files c) (Dependencies c).
Definition withLock (c : Chart) (x : option ChartLock) : Chart :=
  mkChart (Raw c) (Metadata c) x (Templates c) (Values c) (Schema c)
    (Files c) (Dependencies c).
Definition withTemplates (c : Chart) (x : list ChartFile) : Chart :=
  mkChart (Raw c) (Metadata c) (Lock c) x (Values c) (Schema c)
    (Files c) (Dependencies c).
Definition withValues (c : Chart) (x : option (gmap string Value)) : Chart :=
  mkChart (Raw c) (Metadata c) (Lock c) (Templates c) x (Schema c)
    (Files c) (Dependencies c).
Definition withSchema (c : Chart) (x : list byte) : Chart :=
  mkChart (Raw c) (Metadata c) (Lock c) (Templates c) (Values c) x
    (Files c) (Dependencies c).
Definition withFiles (c : Chart) (x : list ChartFile) : Chart :=
  mkChart (Raw c) (Metadata c) (Lock c) (Templates c) (Values c) (Schema c)
    x (Dependencies c).

(** Modelled from the spec: [Chart.Name()] of the chart package, the name in
    the metadata, empty when there is no metadata. *)
Definition ChartName (c : Chart) : string :=
  match Metadata c with
  | Some md => MetaName md
  | None => ""
  end.

(** Modelled from the spec: [Chart.AddDependency], the append-only "add
    dependency" operation. *)
Definition AddDependency (c sc : Chart) : Chart :=
  mkChart (Raw c) (Metadata c) (Lock c) (Templates c) (Values c) (Schema c)
    (Files c) (Dependencies c ++ [sc]).

(** [&chart.File{Name: f.Name, Data: f.Data}]. *)
Definition toChartFile (f : BufferedFile) : ChartFile :=
  mkChartFile (Name f) (Data f).

(** ** Errors *)

(** The errors [LoadValues] and [LoadFiles] return. A [cause] of type
    [string] is the message of an error raised by a collaborator (YAML
    decoder, document reader, validator). [PanicIndexOutOfRange] stands for
    the run-time panic of [files[0]] on an empty group and [DepthExhausted]
    for the bound of the recursion below; [LoadFiles] returns neither
    ([LoadFiles_no_panic], [LoadFiles_unfold]). *)
Inductive LoadError :=
  | ErrCannotLoadChartYaml (cause : string)
  | ErrCannotLoadChartLock (cause : string)
  | ErrReadingYamlDocument (cause : string)
  | ErrCannotUnmarshalYamlDocument (cause : string)
  | ErrCannotLoadValues (cause : LoadError)
  | ErrChartYamlMissing
  | ErrValidation (cause : string)
  | ErrSubchartTar (parent expected got : string)
  | ErrUnpackingSubchart (n parent : string) (cause : LoadError)
  | ErrArchive (cause : string)
  | PanicIndexOutOfRange
  | DepthExhausted.

(** The subchart buffers, [map[string][]*BufferedFile]. *)
Abbreviation Subcharts := (gmap string (list BufferedFile)).

(** ** Collaborators *)

(** What the loader calls but does not define: the YAML decoder applied to
    the metadata record, to the lock record and to a generic document, the
    multi-document reader, the chart validator, the archive loader, and the
    order in which Go ranges over the subchart map (any order is possible, so
    it is a parameter that enumerates the entries of the map). *)
Record Env := mkEnv {
  (** [yaml.Unmarshal(data, c.Metadata)]: decodes into the existing record;
      returns the record after the call and the error, if any. *)
  unmarshalMetadata : list byte -> ChartMetadata -> ChartMetadata * option string;
  (** [yaml.Unmarshal(data, &c.Lock)] with [c.Lock] freshly allocated: the
      pointer after the call and the error, if any. *)
  unmarshalLock : list byte -> option ChartLock * option string;
  (** The YAML document as a generic JSON value, or a syntax error. *)
  YAMLToJSON : list byte -> string + Value;
  (** [utilyaml.NewYAMLReader]: the documents [Read] returns in turn, then
      [None] for [io.EOF] or the message of a read error. *)
  readDocuments : list byte -> list (list byte) * option string;
  (** [c.Validate()]. *)
  Validate : Chart -> option string;
  (** [LoadArchive]: the chart of an archive, or an error (the chart returned
      next to an error is never used by [LoadFiles]). *)
  LoadArchive : list byte -> LoadError + Chart;
  (** [for n, files := range subcharts]. *)
  rangeSubcharts : Subcharts -> list (string * list BufferedFile);
  rangeSubcharts_perm : forall m, rangeSubcharts m ≡ₚ map_to_list m
}.

(** ** LoadValues (load.go, lines 182-200) *)

(** The JSON kind named in the decoder's type error. *)
Definition jsonKind (v : Value) : string :=
  match v with
  | VNull => "null"
  | VBool _ => "bool"
  | VNum _ => "number"
  | VStr _ => "string"
  | VSeq _ => "array"
  | VMap _ => "object"
  end.

(** [yaml.Unmarshal(raw, &currentMap)] with [currentMap] a fresh empty map:
    the document is converted to JSON and decoded into
    [map[string]interface{}]. An object fills the map, [null] leaves a nil
    map (no entries), anything else is a type error. *)
Definition unmarshalMap (E : Env) (raw : list byte)
    : string + gmap string Value :=
  match YAMLToJSON E raw with
  | inl e => inl e
  | inr (VMap m) => inr m
  | inr VNull => inr ∅
  | inr v =>
      inl ("json: cannot unmarshal " +:+ jsonKind v
           +:+ " into Go value of type map[string]interface {}")
  end.

(** The loop body over the documents the reader returns. *)
Fixpoint mergeDocuments (E : Env) (values : gmap string Value)
    (docs : list (list byte)) : LoadError + gmap string Value :=
  match docs with
  | [] => inr values
  | raw :: rest =>
      match unmarshalMap E raw with
      | inl e => inl (ErrCannotUnmarshalYamlDocument e)
      | inr currentMap => mergeDocuments E (MergeMaps values currentMap) rest
      end
  end.

(** [LoadValues]: [(nil, err)] is [inl err], [(values, nil)] is [inr values]. *)
Definition LoadValues (E : Env) (data : list byte)
    : LoadError + gmap string Value :=
  let '(docs, stop) := readDocuments E data in
  match mergeDocuments E ∅ docs with
  | inl e => inl e
  | inr values =>
      match stop with
      | Some e => inl (ErrReadingYamlDocument e)
      | None => inr values
      end
  end.

(** ** LoadFiles (load.go, lines 75-176) *)

(** Lines 93-95: [if c.Metadata.APIVersion == "" { ... = chart.APIVersionV3 }]. *)
Definition defaultAPIVersion (md : ChartMetadata) : ChartMetadata :=
  if String.eqb (APIVersion md) ""
  then mkChartMetadata (MetaName md) (MetaVersion md) APIVersionV3
  else md.

(** First loop (lines 81-97): every file is recorded in [Raw]; every
    ["Chart.yaml"] is decoded into the one metadata record, which is
    allocated on first use and given the default API version when it has
    none. *)
Fixpoint loadMetadata (E : Env) (c : Chart) (files : list BufferedFile)
    : Chart * option LoadError :=
  match files with
  | [] => (c, None)
  | f :: rest =>
      let c := withRaw c (Raw c ++ [toChartFile f]) in
      if String.eqb (Name f) "Chart.yaml" then
        let md := default newMetadata (Metadata c) in
        match unmarshalMetadata E (Data f) md with
        | (md, Some err) =>
            (withMetadata c (Some md), Some (ErrCannotLoadChartYaml err))
        | (md, None) =>
            loadMetadata E (withMetadata c (Some (defaultAPIVersion md))) rest
        end
      else loadMetadata E c rest
  end.

(** [subcharts[cname] = append(subcharts[cname], bf)]. *)
Definition appendSubchart (subcharts : Subcharts) (cname : string)
    (bf : BufferedFile) : Subcharts :=
  <[cname := default [] (subcharts !! cname) ++ [bf]]> subcharts.

(** The body of the second loop (lines 99-130) for one file. *)
Definition classifyFile (E : Env) (c : Chart) (subcharts : Subcharts)
    (f : BufferedFile) : Chart * Subcharts * option LoadError :=
  if String.eqb (Name f) "Chart.yaml" then (c, subcharts, None)
  else if String.eqb (Name f) "Chart.lock" then
    let '(lock, err) := unmarshalLock E (Data f) in
    (withLock c lock, subcharts, option_map ErrCannotLoadChartLock err)
  else if String.eqb (Name f) "values.yaml" then
    match LoadValues E (Data f) with
    | inl err => (c, subcharts, Some (ErrCannotLoadValues err))
    | inr values => (withValues c (Some values), subcharts, None)
    end
  else if String.eqb (Name f) "values.schema.json" then
    (withSchema c (Data f), subcharts, None)
  else if HasPrefix (Name f) "templates/" then
    (withTemplates c (Templates c ++ [toChartFile f]), subcharts, None)
  else if HasPrefix (Name f) "charts/" then
    if String.eqb (Ext (Name f)) ".prov" then
      (withFiles c (Files c ++ [toChartFile f]), subcharts, None)
    else
      let fname := TrimPrefix (Name f) "charts/" in
      let cname := hd "" (SplitN2 fname) in
      (c, appendSubchart subcharts cname (mkBufferedFile fname (Data f)), None)
  else (withFiles c (Files c ++ [toChartFile f]), subcharts, None).

(** Second loop (lines 98-131). *)
Fixpoint classifyFiles (E : Env) (c : Chart) (subcharts : Subcharts)
    (files : list BufferedFile) : Chart * Subcharts * option LoadError :=
  match files with
  | [] => (c, subcharts, None)
  | f :: rest =>
      match classifyFile E c subcharts f with
      | (c, subcharts, Some err) => (c, subcharts, Some err)
      | (c, subcharts, None) => classifyFiles E c subcharts rest
      end
  end.

(** Lines 157-165: the members of a directory group with the group segment
    cut off; a member without ["/"] is left out. *)
Definition stripGroup (files : list BufferedFile) : list BufferedFile :=
  omap (fun f =>
          match SplitN2 (Name f) with
          | [_; rest] => Some (mkBufferedFile rest (Data f))
          | _ => None
          end) files.

(** The outcome of the [switch] of lines 144-167 for one group. *)
Inductive SwitchOutcome :=
  | Continue
  | ReturnError (err : LoadError)
  | Loaded (r : LoadError + Chart).

Definition asLoaded (r : Chart * option LoadError) : LoadError + Chart :=
  match r with
  | (_, Some err) => inl err
  | (sc, None) => inr sc
  end.

Definition loadSubchart (E : Env)
    (rec : list BufferedFile -> Chart * option LoadError)
    (c : Chart) (n : string) (files : list BufferedFile) : SwitchOutcome :=
  if startsWithUnderscoreOrDot n then Continue
  else if String.eqb (Ext n) ".tgz" then
    match files with
    | [] => ReturnError PanicIndexOutOfRange
    | file :: _ =>
        if String.eqb (Name file) n then Loaded (LoadArchive E (Data file))
        else ReturnError (ErrSubchartTar (ChartName c) n (Name file))
    end
  else Loaded (asLoaded (rec (stripGroup files))).

(** The loop over the subchart groups (lines 141-173), in the order the
    range delivers them. *)
Fixpoint loadSubcharts (E : Env)
    (rec : list BufferedFile -> Chart * option LoadError)
    (c : Chart) (groups : list (string * list BufferedFile))
    : Chart * option LoadError :=
  match groups with
  | [] => (c, None)
  | (n, files) :: rest =>
      match loadSubchart E rec c n files with
      | Continue => loadSubcharts E rec c rest
      | ReturnError err => (c, Some err)
      | Loaded (inl err) =>
          (c, Some (ErrUnpackingSubchart n (ChartName c) err))
      | Loaded (inr sc) => loadSubcharts E rec (AddDependency c sc) rest
      end
  end.

(** The body of [LoadFiles], with [rec] for its recursive call. *)
Definition LoadFiles_body (E : Env)
    (rec : list BufferedFile -> Chart * option LoadError)
    (files : list BufferedFile) : Chart * option LoadError :=
  match loadMetadata E newChart files with
  | (c, Some err) => (c, Some err)
  | (c, None) =>
      match classifyFiles E c ∅ files with
      | (c, _, Some err) => (c, Some err)
      | (c, subcharts, None) =>
          match Metadata c with
          | None => (c, Some ErrChartYamlMissing)
          | Some _ =>
              match Validate E c with
              | Some err => (c, Some (ErrValidation err))
              | None => loadSubcharts E rec c (rangeSubcharts E subcharts)
              end
          end
      end
  end.

(** The recursive call receives names that are strictly shorter, so the
    total length of the names bounds the depth of the recursion. *)
Definition namesWeight (files : list BufferedFile) : nat :=
  foldr (fun f n => String.length (Name f) + n) 0 files.

Fixpoint LoadFiles_depth (E : Env) (depth : nat) (files : list BufferedFile)
    : Chart * option LoadError :=
  match depth with
  | 0 => (newChart, Some DepthExhausted)
  | S depth => LoadFiles_body E (LoadFiles_depth E depth) files
  end.

(** [LoadFiles]: the Go pair [(c, err)], where [c] is never nil. *)
Definition LoadFiles (E : Env) (files : list BufferedFile)
    : Chart * option LoadError :=
  LoadFiles_depth E (S (namesWeight files)) files.

(** ** Notions used to state the properties *)

(** The metadata record after one more ["Chart.yaml"] has been decoded into
    it without error: the record is allocated when there is none yet, the
    decoder writes into it, and the API version is defaulted. *)
Definition decodeChartYaml (E : Env) (md : option ChartMetadata)
    (f : BufferedFile) : option ChartMetadata :=
  Some (defaultAPIVersion
          (unmarshalMetadata E (Data f) (default newMetadata md)).1).

(** The entries named ["Chart.yaml"], in input order. *)
Definition chartYamls (files : list BufferedFile) : list BufferedFile :=
  filter (fun f => Name f = "Chart.yaml") files.

(** The key of the subchart group a file is buffered under (lines 119-127):
    the files under ["charts/"] that are not [.prov] files. *)
Definition subchartKey (f : BufferedFile) : option string :=
  if HasPrefix (Name f) "charts/" && negb (String.eqb (Ext (Name f)) ".prov")
  then Some (hd "" (SplitN2 (TrimPrefix (Name f) "charts/")))
  else None.

(** The member stored in the group's buffer for a file (line 127). *)
Definition subchartMember (f : BufferedFile) : BufferedFile :=
  mkBufferedFile (TrimPrefix (Name f) "charts/") (Data f).

(** The subchart buffers a file list gives rise to. *)
Definition subchartsFrom (subcharts : Subcharts) (files : list BufferedFile)
    : Subcharts :=
  foldl (fun subs f =>
           match subchartKey f with
           | Some n => appendSubchart subs n (subchartMember f)
           | None => subs
           end) subcharts files.

(** Every group is non-empty and its names, with the seven bytes of
    ["charts/"] put back on each, weigh at most [w]. *)
Definition groupsBounded (w : nat) (subcharts : Subcharts) : Prop :=
  forall n fs, subcharts !! n = Some fs ->
    fs <> [] /\ namesWeight fs + 7 * length fs <= w.

(** The stage at which [LoadFiles] returns. *)
Inductive Stage (E : Env) (files : list BufferedFile) (c : Chart)
    (e : option LoadError) : Prop :=
  | AtMetadata err :
      loadMetadata E newChart files = (c, Some err) ->
      e = Some err -> Stage E files c e
  | AtClassify (c0 : Chart) (subcharts : Subcharts) err :
      loadMetadata E newChart files = (c0, None) ->
      classifyFiles E c0 ∅ files = (c, subcharts, Some err) ->
      e = Some err -> Stage E files c e
  | AtMissing (c0 : Chart) (subcharts : Subcharts) :
      loadMetadata E newChart files = (c0, None) ->
      classifyFiles E c0 ∅ files = (c, subcharts, None) ->
      Metadata c = None ->
      e = Some ErrChartYamlMissing -> Stage E files c e
  | AtValidate (c0 : Chart) (subcharts : Subcharts) err :
      loadMetadata E newChart files = (c0, None) ->
      classifyFiles E c0 ∅ files = (c, subcharts, None) ->
      Metadata c <> None ->
      Validate E c = Some err ->
      e = Some (ErrValidation err) -> Stage E files c e
  | AtSubcharts (c0 c1 : Chart) (subcharts : Subcharts) :
      loadMetadata E newChart files = (c0, None) ->
      classifyFiles E c0 ∅ files = (c1, subcharts, None) ->
      Metadata c1 <> None ->
      Validate E c1 = None ->
      loadSubcharts E (LoadFiles E) c1 (rangeSubcharts E subcharts) = (c, e) ->
      Stage E files c e.

(** ** A reference instance of the collaborators

    A small, executable instance on which the loader can be run: a decoder
    for the fragment of YAML made of flat block mappings ([key: text] lines),
    flat block sequences ([- text] lines) and empty documents, with plain
    text scalars; a reader that cuts the stream at [---] lines; a validator
    that requires a name and a version. Decoding into a record follows
    [encoding/json]: a key of the document overwrites its field, a field the
    document does not mention keeps the value the record had. *)
Module Ref.

Definition nl : string := String "010"%char EmptyString.

Definition bytes (s : string) : list byte := list_byte_of_string s.

(** The text cut at every line feed. *)
Fixpoint lines (s : string) : list string :=
  match s with
  | EmptyString => [EmptyString]
  | String c rest =>
      if Ascii.eqb c "010"%char then EmptyString :: lines rest
      else match lines rest with
           | l :: ls => String c l :: ls
           | [] => [String c EmptyString]
           end
  end.

(** [key: text] cut at the first colon followed by a space. *)
Fixpoint cutColon (s : string) : option (string * string) :=
  match s with
  | EmptyString => None
  | String c rest =>
      if Ascii.eqb c ":"%char && HasPrefix rest " "
      then Some (EmptyString, TrimPrefix rest " ")
      else match cutColon rest with
           | Some (k, v) => Some (String c k, v)
           | None => None
           end
  end.

Definition sequenceItem (s : string) : option string :=
  if HasPrefix s "- " then Some (TrimPrefix s "- ") else None.

Definition nonBlank (s : string) : bool := negb (String.eqb s "").

Definition decodeLines (ls : list string) : string + Value :=
  match ls with
  | [] => inr VNull
  | _ =>
      match mapM cutColon ls with
      | Some kvs =>
          inr (VMap (foldl (fun m kv => <[kv.1 := VStr kv.2]> m) ∅ kvs))
      | None =>
          match mapM sequenceItem ls with
          | Some items => inr (VSeq (VStr <$> items))
          | None => inl "yaml: did not find expected node content"
          end
      end
  end.

Definition yamlToJSON (data : list byte) : string + Value :=
  decodeLines (filter (fun l => Is_true (nonBlank l))
                 (lines (string_of_list_byte data))).

Definition field (m : gmap string Value) (key old : string) : string :=
  match m !! key with
  | Some (VStr s) => s
  | _ => old
  end.

Definition unmarshalMetadata (data : list byte) (md : ChartMetadata)
    : ChartMetadata * option string :=
  match yamlToJSON data with
  | inl e => (md, Some e)
  | inr VNull => (md, None)
  | inr (VMap m) =>
      (mkChartMetadata (field m "name" (MetaName md))
         (field m "version" (MetaVersion md))
         (field m "apiVersion" (APIVersion md)), None)
  | inr v =>
      (md, Some ("json: cannot unmarshal " +:+ jsonKind v
                 +:+ " into Go value of type chart.Metadata"))
  end.

Definition unmarshalLock (data : list byte) : option ChartLock * option string :=
  match yamlToJSON data with
  | inl e => (Some (mkChartLock ""), Some e)
  | inr VNull => (None, None)
  | inr (VMap m) => (Some (mkChartLock (field m "digest" "")), None)
  | inr v =>
      (Some (mkChartLock ""),
       Some ("json: cannot unmarshal " +:+ jsonKind v
             +:+ " into Go value of type chart.Lock"))
  end.

(** The lines of the stream grouped into documents at [---] lines. *)
Fixpoint splitDocuments (ls cur : list string) : list (list string) :=
  match ls with
  | [] => [cur]
  | l :: rest =>
      if HasPrefix l "---" then cur :: splitDocuments rest []
      else splitDocuments rest (cur ++ [l])
  end.

Definition joinLines (ls : list string) : string :=
  foldr (fun l acc => l +:+ nl +:+ acc) "" ls.

Definition readDocuments (data : list byte)
    : list (list byte) * option string :=
  (bytes <$> (joinLines <$>
     filter (fun d => Is_true (existsb nonBlank d))
       (splitDocuments (lines (string_of_list_byte data)) [])),
   None).

Definition Validate (c : Chart) : option string :=
  match Metadata c with
  | None => Some "chart.metadata is required"
  | Some md =>
      if String.eqb (MetaName md) ""
      then Some "chart.metadata.name is required"
      else if String.eqb (MetaVersion md) ""
      then Some "chart.metadata.version is required"
      else None
  end.

(** No buffer of the examples below is a gzip archive. *)
Definition LoadArchive (data : list byte) : LoadError + Chart :=
  inl (ErrArchive "gzip: invalid header").

Definition env : Env :=
  mkEnv unmarshalMetadata unmarshalLock yamlToJSON readDocuments Validate
    LoadArchive map_to_list (fun m => reflexivity (map_to_list m)).

Definition file (name text : string) : BufferedFile :=
  mkBufferedFile name (bytes text).

(** A well-formed [Chart.yaml]. *)
Definition chartYaml : BufferedFile :=
  file "Chart.yaml" ("name: a" +:+ nl +:+ "version: 1.0.0" +:+ nl).

(** A second [Chart.yaml] that sets the name only. *)
Definition chartYamlB : BufferedFile :=
  file "Chart.yaml" ("name: b" +:+ nl).

(** A chart with two value documents, a template, a subchart [sub], a
    group [_h] that is not a subchart, and a plain file. *)
Definition sample : list BufferedFile :=
  [ chartYaml;
    file "values.yaml"
      ("a: b" +:+ nl +:+ "---" +:+ nl +:+ "c: d" +:+ nl);
    file "templates/y.yaml" "kind: ConfigMap";
    file "charts/sub/Chart.yaml"
      ("name: sub" +:+ nl +:+ "version: 0.1.0" +:+ nl);
    file "charts/sub/templates/x.yaml" "kind: Secret";
    file "charts/_h/z" "w";
    file "README" "r" ].

(** A plain file directly under [charts/]. *)
Definition strayFile : list BufferedFile :=
  [ chartYaml; file "charts/README.md" "hello" ].

Definition twoChartYamls : list BufferedFile := [ chartYaml; chartYamlB ].

(** No [Chart.yaml], and a [Chart.lock] that is not valid YAML. *)
Definition lockOnly : list BufferedFile := [ file "Chart.lock" "{" ].

(** No [Chart.yaml]; everything else can be loaded. *)
Definition noChartYaml : list BufferedFile :=
  [ file "values.yaml" ("a: b" +:+ nl); file "templates/y.yaml" "t" ].




(** A [values.yaml] whose document is a sequence. *)
Definition sequenceValues : list BufferedFile :=
  [ chartYaml; file "values.yaml" ("- a" +:+ nl) ].

End Ref.

(** ** Notions used to state further properties *)

(** The four names the second loop tests for first (lines 100-115). *)
Definition isReservedName (name : string) : bool :=
  String.eqb name "Chart.yaml" || String.eqb name "Chart.lock"
  || String.eqb name "values.yaml" || String.eqb name "values.schema.json".

(** The files the second loop appends to [Templates] (line 117). *)
Definition isTemplate (f : BufferedFile) : bool :=
  HasPrefix (Name f) "templates/".

(** The files the second loop appends to [Files]: the [.prov] files under
    ["charts/"] (lines 120-123) and the files no other case takes
    (line 129). *)
Definition keptInFiles (f : BufferedFile) : bool :=
  negb (isReservedName (Name f))
  && negb (HasPrefix (Name f) "templates/")
  && (negb (HasPrefix (Name f) "charts/")
      || String.eqb (Ext (Name f)) ".prov").

(** How the dependency [d] is obtained from the group [g] (lines 147-166):
    from the archive held by the first member, whose name is the key, when
    the key has extension [.tgz]; from the members below the group segment
    otherwise. *)
Definition builtFrom (E : Env) (g : string * list BufferedFile) (d : Chart)
    : Prop :=
  if String.eqb (Ext g.1) ".tgz"
  then exists file others,
         g.2 = file :: others /\ Name file = g.1
         /\ LoadArchive E (Data file) = inr d
  else LoadFiles E (stripGroup g.2) = (d, None).

(** Two sets of collaborators that differ at most in the order in which the
    subchart map is ranged over. *)
Definition sameCollaborators (E1 E2 : Env) : Prop :=
  (forall data md, unmarshalMetadata E1 data md = unmarshalMetadata E2 data md)
  /\ (forall data, unmarshalLock E1 data = unmarshalLock E2 data)
  /\ (forall data, YAMLToJSON E1 data = YAMLToJSON E2 data)
  /\ (forall data, readDocuments E1 data = readDocuments E2 data)
  /\ (forall c, Validate E1 c = Validate E2 c)
  /\ (forall data, LoadArchive E1 data = LoadArchive E2 data).

(** The switch of lines 144-167 lets the loop go on for this group: the
    group is skipped or a chart was loaded from it. *)
Definition groupLoads (E : Env)
    (rec : list BufferedFile -> Chart * option LoadError)
    (c : Chart) (g : string * list BufferedFile) : Prop :=
  match loadSubchart E rec c g.1 g.2 with
  | Continue | Loaded (inr _) => True
  | _ => False
  end.

(** ** Further instances and inputs *)
Module More.

(** The reference collaborators with the subchart map ranged over in the
    opposite order. *)
Definition envReversed : Env :=
  mkEnv Ref.unmarshalMetadata Ref.unmarshalLock Ref.yamlToJSON
    Ref.readDocuments Ref.Validate Ref.LoadArchive
    (fun m => reverse (map_to_list m))
    (fun m => reverse_Permutation (map_to_list m)).

(** The decoder of the reference instance extended to comments: lines that
    start with [#] are dropped, so a document of comments only is null. *)
Definition yamlToJSON (data : list byte) : string + Value :=
  Ref.decodeLines
    (filter (fun l => Is_true (Ref.nonBlank l && negb (HasPrefix l "#")))
       (Ref.lines (string_of_list_byte data))).

Definition envComments : Env :=
  mkEnv Ref.unmarshalMetadata Ref.unmarshalLock yamlToJSON
    Ref.readDocuments Ref.Validate Ref.LoadArchive
    map_to_list (fun m => reflexivity (map_to_list m)).

(** Value streams. *)
Definition twoDocuments : list byte :=
  Ref.bytes ("a: b" +:+ Ref.nl +:+ "---" +:+ Ref.nl +:+ "c: d" +:+ Ref.nl).

Definition withCommentDocument : list byte :=
  Ref.bytes ("a: b" +:+ Ref.nl +:+ "---" +:+ Ref.nl +:+ "# none" +:+ Ref.nl
             +:+ "---" +:+ Ref.nl +:+ "c: d" +:+ Ref.nl).

Definition overridingDocuments : list byte :=
  Ref.bytes ("a: b" +:+ Ref.nl +:+ "---" +:+ Ref.nl +:+ "a: z" +:+ Ref.nl).

Definition withSequenceDocument : list byte :=
  Ref.bytes ("a: b" +:+ Ref.nl +:+ "---" +:+ Ref.nl +:+ "- x" +:+ Ref.nl
             +:+ "---" +:+ Ref.nl +:+ "c: d" +:+ Ref.nl).

(** File lists. *)
Definition schemaFile : BufferedFile := Ref.file "values.schema.json" "{}".

Definition withSchema : list BufferedFile :=
  [ Ref.chartYaml; schemaFile; Ref.file "README" "r" ].

Definition brokenChartYaml : BufferedFile := Ref.file "Chart.yaml" "{".

(** A ["values.yaml"] that cannot be loaded, followed by a ["Chart.yaml"]
    that cannot be decoded. *)
Definition brokenMetadataLast : list BufferedFile :=
  [ Ref.file "values.yaml" ("- a" +:+ Ref.nl); brokenChartYaml ].

Definition subChartYaml : BufferedFile :=
  Ref.file "charts/sub/Chart.yaml"
    ("name: sub" +:+ Ref.nl +:+ "version: 0.1.0" +:+ Ref.nl).

End More.

(** ** Properties of MergeMaps *)

Lemma MergeMaps_unfold (a b : gmap string Value) :
  MergeMaps a b = map_fold (mergeStep mergeOverlay) a b.
Proof. reflexivity. Qed.

Lemma mergeOverlay_VMap (vm bv : gmap string Value) :
  mergeOverlay (VMap vm) bv = MergeMaps bv vm.
Proof. reflexivity. Qed.

Lemma lookup_MergeMaps (a b : gmap string Value) (k : string) :
  MergeMaps a b !! k = mergedEntry (a !! k) (b !! k).
Proof.
  rewrite MergeMaps_unfold.
  apply (map_fold_weak_ind
    (fun out m => out !! k = mergedEntry (a !! k) (m !! k))).
  { by rewrite lookup_empty. }
  intros i x m out Hi IH.
  destruct (decide (i = k)) as [->|Hne].
  - rewrite Hi in IH. simpl in IH. rewrite lookup_insert_eq.
    unfold mergeStep. destruct x; simpl; try by rewrite lookup_insert_eq.
    rewrite IH. destruct (a !! k) as [[]|]; simpl;
      by rewrite lookup_insert_eq.
  - rewrite lookup_insert_ne by done. rewrite <- IH.
    unfold mergeStep. destruct x; try by rewrite lookup_insert_ne.
    destruct (out !! i) as [[]|]; by rewrite lookup_insert_ne.
Qed.

Lemma vsize_lookup (m : gmap string Value) (k : string) (v : Value) :
  m !! k = Some v -> vsize v < vsize (VMap m).
Proof.
  intros Hk. simpl.
  rewrite (map_fold_delete_L _ _ k v m); [lia| |done].
  intros. lia.
Qed.

Lemma MergeMaps_self_size (n : nat) :
  forall x : gmap string Value, vsize (VMap x) <= n -> MergeMaps x x = x.
Proof.
  induction n as [|n IH]; intros x Hx; [simpl in Hx; lia|].
  apply map_eq. intros k. rewrite lookup_MergeMaps.
  destruct (x !! k) as [v|] eqn:Hk; [|done].
  destruct v; try done. simpl.
  rewrite IH; [done|]. apply vsize_lookup in Hk. lia.
Qed.

Lemma MergeMaps_self (x : gmap string Value) : MergeMaps x x = x.
Proof. by apply (MergeMaps_self_size (vsize (VMap x))). Qed.

Lemma MergeMaps_idem_size (n : nat) :
  forall a b : gmap string Value,
    vsize (VMap b) <= n -> MergeMaps (MergeMaps a b) b = MergeMaps a b.
Proof.
  induction n as [|n IH]; intros a b Hb; [simpl in Hb; lia|].
  apply map_eq. intros k. rewrite !lookup_MergeMaps.
  destruct (b !! k) as [v|] eqn:Hk; [|done].
  destruct v; try done.
  apply vsize_lookup in Hk.
  destruct (a !! k) as [[]|]; simpl; rewrite ?MergeMaps_self; try done.
  rewrite IH; [done|lia].
Qed.

(** C1: deep-merge contract of [MergeMaps]. For every key the merged map
    holds: the recursive merge when base and overlay both hold mappings; the
    overlay value for every other key of the overlay (sequences, scalars and
    map against non-map are never combined); the base value for keys the
    overlay lacks. The two examples of the specification evaluate as stated. *)
Theorem C1_MergeMaps_contract :
  (forall (a b : gmap string Value) (k : string),
     (forall am vm, a !! k = Some (VMap am) -> b !! k = Some (VMap vm) ->
        MergeMaps a b !! k = Some (VMap (MergeMaps am vm)))
     /\ (forall v, b !! k = Some v ->
           (asMap v = None \/ (a !! k ≫= asMap) = None) ->
           MergeMaps a b !! k = Some v)
     /\ (b !! k = None -> MergeMaps a b !! k = a !! k))
  /\ MergeMaps {[ "x" := VMap {[ "a" := VNum 1; "b" := VNum 2 ]} ]}
               {[ "x" := VMap {[ "b" := VNum 3 ]} ]}
     = {[ "x" := VMap {[ "a" := VNum 1; "b" := VNum 3 ]} ]}
  /\ MergeMaps {[ "x" := VMap {[ "a" := VNum 1 ]} ]}
               {[ "x" := VSeq [VNum 1; VNum 2] ]}
     = {[ "x" := VSeq [VNum 1; VNum 2] ]}.
Proof.
  split; [|split; vm_compute; reflexivity].
  intros a b k. repeat split.
  - intros am vm Ha Hb. by rewrite lookup_MergeMaps, Ha, Hb.
  - intros v Hb Hcase. rewrite lookup_MergeMaps, Hb.
    destruct Hcase as [Hv|Ha].
    + by destruct v.
    + destruct v; try done. by destruct (a !! k) as [[]|].
  - intros Hb. by rewrite lookup_MergeMaps, Hb.
Qed.

(** C6: merging the same overlay a second time changes nothing. *)
Theorem C6_MergeMaps_idempotent (a b : gmap string Value) :
  MergeMaps (MergeMaps a b) b = MergeMaps a b.
Proof. by apply (MergeMaps_idem_size (vsize (VMap b))). Qed.

(** ** String helpers *)

Lemma substring_all_length (s : string) :
  String.length (String.substring 0 (String.length s) s) = String.length s.
Proof. induction s as [|c s IH]; simpl; [done|by rewrite IH]. Qed.

Lemma prefix_substring_length (p : string) :
  forall s, String.prefix p s = true ->
    String.length p
    + String.length
        (String.substring (String.length p)
           (String.length s - String.length p) s)
    = String.length s.
Proof.
  induction p as [|a p IH]; intros s Hs; simpl.
  - rewrite Nat.sub_0_r. apply substring_all_length.
  - destruct s as [|b s]; simpl in Hs; [done|].
    destruct (ascii_dec a b); [|done]. simpl. f_equal. by apply IH.
Qed.

Lemma TrimPrefix_length (s p : string) :
  HasPrefix s p = true ->
  String.length s = String.length p + String.length (TrimPrefix s p).
Proof.
  intros Hp. unfold TrimPrefix. rewrite Hp. unfold HasPrefix in Hp.
  by rewrite prefix_substring_length.
Qed.

Lemma cutSlash_length (s h t : string) :
  cutSlash s = (h, Some t) -> String.length t < String.length s.
Proof.
  revert h. induction s as [|c s IH]; intros h Hs; simpl in *; [done|].
  destruct (Ascii.eqb c "/"); [simplify_eq; lia|].
  destruct (cutSlash s) as [h' [t'|]]; simplify_eq.
  specialize (IH h' eq_refl). lia.
Qed.

Lemma prefix_append (p : string) :
  forall s, String.prefix p s = true -> exists r, s = p +:+ r.
Proof.
  induction p as [|a p IH]; intros s Hs.
  - by exists s.
  - destruct s as [|b s]; simpl in Hs; [done|].
    destruct (ascii_dec a b) as [->|]; [|done].
    destruct (IH s Hs) as [r ->]. by exists r.
Qed.

Lemma HasPrefix_charts (s : string) :
  HasPrefix s "charts/" = true -> exists r, s = "charts/" +:+ r.
Proof. apply prefix_append. Qed.

Example Ext_examples :
  Ext "charts/foo.tgz" = ".tgz" /\ Ext "charts/a.prov" = ".prov"
  /\ Ext "a.b/c" = "" /\ Ext "README" = "" /\ Ext "_x.tgz" = ".tgz".
Proof. repeat split. Qed.

Example SplitN2_examples :
  SplitN2 "sub/templates/x.yaml" = ["sub"; "templates/x.yaml"]
  /\ SplitN2 "README.md" = ["README.md"] /\ SplitN2 "" = [""]
  /\ TrimPrefix "charts/sub/Chart.yaml" "charts/" = "sub/Chart.yaml".
Proof. repeat split. Qed.

(** ** Weights of name lists *)

Lemma namesWeight_app (l1 l2 : list BufferedFile) :
  namesWeight (l1 ++ l2) = namesWeight l1 + namesWeight l2.
Proof.
  unfold namesWeight. induction l1 as [|f l1 IH]; simpl; [done|].
  rewrite IH. lia.
Qed.

Lemma namesWeight_singleton (f : BufferedFile) :
  namesWeight [f] = String.length (Name f).
Proof. unfold namesWeight. simpl. lia. Qed.

Lemma namesWeight_stripGroup (fs : list BufferedFile) :
  namesWeight (stripGroup fs) <= namesWeight fs.
Proof.
  induction fs as [|f fs IH]; simpl; [done|].
  unfold SplitN2. destruct (cutSlash (Name f)) as [h [t|]] eqn:Hcut; simpl.
  - apply cutSlash_length in Hcut. unfold namesWeight in *. simpl. lia.
  - unfold namesWeight in *. simpl. lia.
Qed.

Lemma groupsBounded_weaken (w w' : nat) (subcharts : Subcharts) :
  w <= w' -> groupsBounded w subcharts -> groupsBounded w' subcharts.
Proof.
  intros Hw Hb n fs Hn. destruct (Hb n fs Hn) as [? ?]. split; [done|lia].
Qed.

Lemma groupsBounded_empty (w : nat) : groupsBounded w ∅.
Proof. intros n fs Hn. by rewrite lookup_empty in Hn. Qed.

Lemma groupsBounded_append (w k : nat) (subcharts : Subcharts)
    (cname : string) (bf : BufferedFile) :
  groupsBounded w subcharts ->
  String.length (Name bf) + 7 <= k ->
  groupsBounded (w + k) (appendSubchart subcharts cname bf).
Proof.
  intros Hb Hk n fs Hn. unfold appendSubchart in Hn.
  destruct (decide (cname = n)) as [->|Hne].
  - rewrite lookup_insert_eq in Hn. simplify_eq.
    split; [by destruct (default [] (subcharts !! n))|].
    rewrite namesWeight_app, length_app, namesWeight_singleton. simpl.
    destruct (subcharts !! n) as [fs|] eqn:Hfs; simpl.
    + destruct (Hb n fs Hfs). lia.
    + lia.
  - rewrite lookup_insert_ne in Hn by done.
    destruct (Hb n fs Hn). split; [done|lia].
Qed.

(** ** The passes of LoadFiles *)

Lemma charts_not_special (s : string) :
  HasPrefix s "charts/" = true ->
  String.eqb s "Chart.yaml" = false
  /\ String.eqb s "Chart.lock" = false
  /\ String.eqb s "values.yaml" = false
  /\ String.eqb s "values.schema.json" = false
  /\ HasPrefix s "templates/" = false.
Proof.
  intros Hs. destruct (HasPrefix_charts s Hs) as [r ->].
  repeat split; reflexivity.
Qed.

Section Loader.
Context (E : Env).
Implicit Types (c sc : Chart) (files buff : list BufferedFile).
Implicit Types (subcharts : Subcharts) (f : BufferedFile).
Implicit Types (rec : list BufferedFile -> Chart * option LoadError).

(** *** First loop *)

Lemma loadMetadata_app c files1 files2 :
  loadMetadata E c (files1 ++ files2) =
  match loadMetadata E c files1 with
  | (c1, None) => loadMetadata E c1 files2
  | r => r
  end.
Proof.
  revert c. induction files1 as [|f files1 IH]; intros c; simpl; [done|].
  destruct (String.eqb (Name f) "Chart.yaml"); [|apply IH].
  destruct (unmarshalMetadata E (Data f) _) as [md [err|]]; [done|apply IH].
Qed.

Lemma loadMetadata_fields c files c' e :
  loadMetadata E c files = (c', e) ->
  Lock c' = Lock c /\ Templates c' = Templates c /\ Values c' = Values c
  /\ Schema c' = Schema c /\ Files c' = Files c
  /\ Dependencies c' = Dependencies c.
Proof.
  revert c. induction files as [|f files IH]; intros c; simpl.
  { by intros [= <- <-]. }
  destruct (String.eqb (Name f) "Chart.yaml").
  - destruct (unmarshalMetadata E (Data f) _) as [md [err|]].
    + by intros [= <- <-].
    + intros H. by apply IH in H.
  - intros H. by apply IH in H.
Qed.

Lemma loadMetadata_ok c files c' :
  loadMetadata E c files = (c', None) ->
  Raw c' = Raw c ++ (toChartFile <$> files)
  /\ Metadata c' = foldl (decodeChartYaml E) (Metadata c) (chartYamls files).
Proof.
  revert c. induction files as [|f files IH]; intros c; simpl.
  { intros [= <-]. by rewrite app_nil_r. }
  unfold chartYamls. rewrite filter_cons.
  destruct (String.eqb_spec (Name f) "Chart.yaml") as [Hn|Hn].
  - rewrite decide_True by done.
    destruct (unmarshalMetadata E (Data f) _) as [md [err|]] eqn:Hmd;
      [done|].
    intros H. apply IH in H as [-> ->]. simpl.
    split; [by rewrite <- app_assoc|].
    f_equal. unfold decodeChartYaml. by rewrite Hmd.
  - rewrite decide_False by done.
    intros H. apply IH in H as [-> ->]. simpl.
    split; [by rewrite <- app_assoc|done].
Qed.

Lemma loadMetadata_error c files c' err :
  loadMetadata E c files = (c', Some err) ->
  exists cause pre f post,
    err = ErrCannotLoadChartYaml cause
    /\ files = pre ++ f :: post
    /\ Name f = "Chart.yaml"
    /\ Raw c' = Raw c ++ (toChartFile <$> pre ++ [f]).
Proof.
  revert c. induction files as [|f files IH]; intros c; simpl; [done|].
  destruct (String.eqb_spec (Name f) "Chart.yaml") as [Hn|Hn].
  - destruct (unmarshalMetadata E (Data f) _) as [md [cause|]].
    + intros [= <- <-]. by exists cause, [], f, files.
    + intros H. apply IH in H as (cause & pre & g & post & -> & -> & ? & ->).
      exists cause, (f :: pre), g, post. simpl.
      by rewrite <- app_assoc.
  - intros H. apply IH in H as (cause & pre & g & post & -> & -> & ? & ->).
    exists cause, (f :: pre), g, post. simpl.
    by rewrite <- app_assoc.
Qed.

Lemma loadMetadata_no_chartYaml c files :
  (forall f, f ∈ files -> Name f <> "Chart.yaml") ->
  loadMetadata E c files
  = (withRaw c (Raw c ++ (toChartFile <$> files)), None).
Proof.
  revert c. induction files as [|f files IH]; intros c Hno; simpl.
  { rewrite app_nil_r. by destruct c. }
  destruct (String.eqb_spec (Name f) "Chart.yaml") as [Hn|Hn].
  { exfalso. apply (Hno f); [left|done]. }
  rewrite IH by (intros g Hg; apply Hno; by right).
  simpl. by rewrite <- app_assoc.
Qed.

(** *** Second loop *)

Lemma classifyFile_member c subcharts f n :
  subchartKey f = Some n ->
  classifyFile E c subcharts f
  = (c, appendSubchart subcharts n (subchartMember f), None).
Proof.
  unfold subchartKey.
  destruct (HasPrefix (Name f) "charts/") eqn:Hp; [|done].
  destruct (String.eqb (Ext (Name f)) ".prov") eqn:He; [done|].
  simpl. intros [= <-]. unfold classifyFile.
  destruct (charts_not_special _ Hp) as (-> & -> & -> & -> & ->).
  by rewrite Hp, He.
Qed.

Lemma classifyFile_other c subcharts f c' subcharts' e :
  subchartKey f = None ->
  classifyFile E c subcharts f = (c', subcharts', e) ->
  subcharts' = subcharts
  /\ Raw c' = Raw c /\ Metadata c' = Metadata c
  /\ Dependencies c' = Dependencies c
  /\ (Files c' = Files c \/ Files c' = Files c ++ [toChartFile f])
  /\ (forall err, e = Some err ->
        (exists cause, err = ErrCannotLoadChartLock cause)
        \/ (exists cause, err = ErrCannotLoadValues cause)).
Proof.
  unfold subchartKey, classifyFile. intros Hkey H.
  repeat case_match; simplify_eq/=;
    repeat split; eauto; try done.
  all: intros err Herr; simplify_eq/=; eauto.
  match goal with
  | H : option_map _ ?x = Some _ |- _ => destruct x; simplify_eq/=; eauto
  end.
Qed.

Lemma classifyFiles_app c subcharts files1 files2 :
  classifyFiles E c subcharts (files1 ++ files2) =
  match classifyFiles E c subcharts files1 with
  | (c1, subcharts1, None) => classifyFiles E c1 subcharts1 files2
  | r => r
  end.
Proof.
  revert c subcharts.
  induction files1 as [|f files1 IH]; intros c subcharts; simpl; [done|].
  destruct (classifyFile E c subcharts f) as [[c1 s1] [err|]]; [done|].
  apply IH.
Qed.

Lemma classifyFiles_inv c subcharts files c' subcharts' e :
  classifyFiles E c subcharts files = (c', subcharts', e) ->
  Raw c' = Raw c /\ Metadata c' = Metadata c
  /\ Dependencies c' = Dependencies c
  /\ (forall x, x ∈ Files c' ->
        x ∈ Files c
        \/ exists f, f ∈ files /\ subchartKey f = None /\ x = toChartFile f)
  /\ (e = None -> subcharts' = subchartsFrom subcharts files)
  /\ (forall err, e = Some err ->
        (exists cause, err = ErrCannotLoadChartLock cause)
        \/ (exists cause, err = ErrCannotLoadValues cause)).
Proof.
  revert c subcharts.
  induction files as [|f files IH]; intros c subcharts; simpl.
  { intros [= <- <- <-]. repeat split; eauto; done. }
  destruct (subchartKey f) as [n|] eqn:Hkey.
  - rewrite (classifyFile_member _ _ _ n Hkey). intros H.
    apply IH in H as (-> & -> & -> & HF & Hs & He).
    repeat split; eauto.
    intros x Hx. destruct (HF x Hx) as [?|(g & ? & ? & ?)]; [by left|].
    right. exists g. split; [by right|done].
  - destruct (classifyFile E c subcharts f) as [[c1 s1] e1] eqn:Hf.
    apply (classifyFile_other _ _ _ _ _ _ Hkey) in Hf
      as (-> & HR & HM & HD & HF1 & He1).
    destruct e1 as [err|].
    + intros [= <- <- <-]. repeat split; eauto; try done.
      intros x Hx. destruct HF1 as [HF1|HF1]; rewrite HF1 in Hx.
      * by left.
      * apply elem_of_app in Hx as [?|Hx]; [by left|].
        apply list_elem_of_singleton in Hx as ->.
        right. exists f. split; [left|done].
    + intros H. apply IH in H as (-> & -> & -> & HF & Hs & He).
      repeat split; eauto.
      intros x Hx. destruct (HF x Hx) as [Hx1|(g & ? & ? & ?)].
      * destruct HF1 as [HF1|HF1]; rewrite HF1 in Hx1; [by left|].
        apply elem_of_app in Hx1 as [?|Hx1]; [by left|].
        apply list_elem_of_singleton in Hx1 as ->.
        right. exists f. split; [left|done].
      * right. exists g. split; [by right|done].
Qed.

Lemma subchartsFrom_bounded (w : nat) subcharts files :
  groupsBounded w subcharts ->
  groupsBounded (w + namesWeight files) (subchartsFrom subcharts files).
Proof.
  revert w subcharts.
  induction files as [|f files IH]; intros w subcharts Hb; simpl.
  { eapply groupsBounded_weaken; [|done]. lia. }
  apply (groupsBounded_weaken
           ((w + String.length (Name f)) + namesWeight files));
    [unfold namesWeight; simpl; lia|].
  apply IH. destruct (subchartKey f) as [n|] eqn:Hkey.
  - apply groupsBounded_append; [done|].
    unfold subchartKey in Hkey.
    destruct (HasPrefix (Name f) "charts/") eqn:Hp; [|done].
    apply TrimPrefix_length in Hp. simpl in *. lia.
  - eapply groupsBounded_weaken; [|done]. lia.
Qed.

(** A group key is the first segment of the names of its members, and
    every member stands for an input file. *)
Lemma subchartsFrom_members subcharts files n fs :
  subchartsFrom subcharts files !! n = Some fs ->
  exists old new,
    fs = old ++ (subchartMember <$> new)
    /\ old = default [] (subcharts !! n)
    /\ new = filter (fun f => subchartKey f = Some n) files.
Proof.
  revert subcharts.
  induction files as [|f files IH]; intros subcharts; simpl.
  { intros Hn. exists fs, []. rewrite Hn, app_nil_r. done. }
  intros H. apply IH in H as (old & new & -> & -> & ->).
  eexists _, _. split; [|done]. rewrite filter_cons.
  destruct (subchartKey f) as [k|] eqn:Hkey.
  - unfold appendSubchart. destruct (decide (k = n)) as [->|Hne].
    + rewrite lookup_insert_eq, decide_True by done. simpl.
      by rewrite <- app_assoc.
    + rewrite lookup_insert_ne by done.
      rewrite decide_False by congruence. done.
  - by rewrite decide_False.
Qed.

(** *** The loop over the subchart groups *)

Lemma ChartName_AddDependency c sc :
  ChartName (AddDependency c sc) = ChartName c.
Proof. done. Qed.

Lemma loadSubchart_ChartName rec c1 c2 (n : string) files :
  ChartName c1 = ChartName c2 ->
  loadSubchart E rec c1 n files = loadSubchart E rec c2 n files.
Proof. intros Hn. unfold loadSubchart. by rewrite Hn. Qed.

Lemma loadSubcharts_ext rec1 rec2 c
    (groups : list (string * list BufferedFile)) :
  (forall n fs, (n, fs) ∈ groups ->
     rec1 (stripGroup fs) = rec2 (stripGroup fs)) ->
  loadSubcharts E rec1 c groups = loadSubcharts E rec2 c groups.
Proof.
  revert c. induction groups as [|[n fs] groups IH]; intros c H; simpl;
    [done|].
  assert (loadSubchart E rec1 c n fs = loadSubchart E rec2 c n fs) as ->.
  { unfold loadSubchart. rewrite (H n fs) by left. done. }
  destruct (loadSubchart E rec2 c n fs) as [| |[|]]; try done;
    apply IH; intros n' fs' Hin; apply (H n' fs'); by right.
Qed.


Lemma loadSubcharts_inv rec c
    (groups : list (string * list BufferedFile)) c' e :
  loadSubcharts E rec c groups = (c', e) ->
  Raw c' = Raw c /\ Metadata c' = Metadata c /\ Files c' = Files c
  /\ exists gs ds,
       Dependencies c' = Dependencies c ++ ds
       /\ gs `sublist_of` groups
       /\ Forall2 (fun g d =>
                     startsWithUnderscoreOrDot g.1 = false
                     /\ loadSubchart E rec c g.1 g.2 = Loaded (inr d))
            gs ds.
Proof.
  revert c. induction groups as [|[n fs] groups IH]; intros c; simpl.
  { intros [= <- <-]. repeat split. exists [], [].
    rewrite app_nil_r. by repeat split. }
  destruct (loadSubchart E rec c n fs) as [|err|[err|sc]] eqn:Hsw.
  - intros H. apply IH in H as (-> & -> & -> & gs & ds & -> & Hsub & Hall).
    repeat split. exists gs, ds. repeat split; [by constructor|done].
  - intros [= <- <-]. repeat split. exists [], [].
    rewrite app_nil_r. repeat split; [apply sublist_nil_l|done].
  - intros [= <- <-]. repeat split. exists [], [].
    rewrite app_nil_r. repeat split; [apply sublist_nil_l|done].
  - intros H. apply IH in H as (-> & -> & -> & gs & ds & -> & Hsub & Hall).
    repeat split. exists ((n, fs) :: gs), (sc :: ds). simpl.
    rewrite <- app_assoc. repeat split; [by constructor|].
    constructor.
    + split; [|done]. unfold loadSubchart in Hsw. simpl.
      by destruct (startsWithUnderscoreOrDot n).
    + eapply Forall2_impl; [done|]. intros g d [? Hg]. split; [done|].
      by rewrite <- Hg.
Qed.

(** *** The recursion of LoadFiles *)

Lemma LoadFiles_body_ext rec1 rec2 files :
  (forall buff, namesWeight buff < namesWeight files ->
     rec1 buff = rec2 buff) ->
  LoadFiles_body E rec1 files = LoadFiles_body E rec2 files.
Proof.
  intros H. unfold LoadFiles_body.
  destruct (loadMetadata E newChart files) as [c [e|]]; [done|].
  destruct (classifyFiles E c ∅ files) as [[c1 subs] [e|]] eqn:Hc; [done|].
  destruct (Metadata c1); [|done]. destruct (Validate E c1); [done|].
  apply loadSubcharts_ext. intros n fs Hin. apply H.
  apply classifyFiles_inv in Hc as (_ & _ & _ & _ & Hs & _).
  rewrite (Hs eq_refl) in Hin.
  apply (elem_of_Permutation_proper _ _ _ (rangeSubcharts_perm E _)) in Hin.
  apply elem_of_map_to_list in Hin.
  destruct (subchartsFrom_bounded 0 ∅ files (groupsBounded_empty 0) n fs Hin)
    as [Hne Hw].
  pose proof (namesWeight_stripGroup fs).
  assert (0 < length fs) by (destruct fs; [done|simpl; lia]). lia.
Qed.

Lemma LoadFiles_depth_stable (d1 : nat) :
  forall (d2 : nat) files,
    namesWeight files < d1 -> namesWeight files < d2 ->
    LoadFiles_depth E d1 files = LoadFiles_depth E d2 files.
Proof.
  induction d1 as [|d1 IH]; intros d2 files H1 H2; [lia|].
  destruct d2 as [|d2]; [lia|]. simpl.
  apply LoadFiles_body_ext. intros buff Hb. apply IH; lia.
Qed.

(** [LoadFiles] satisfies the equation of the source function: the depth
    bound is never reached. *)
Lemma LoadFiles_unfold files :
  LoadFiles E files = LoadFiles_body E (LoadFiles E) files.
Proof.
  unfold LoadFiles at 1. simpl.
  apply LoadFiles_body_ext. intros buff Hb.
  unfold LoadFiles. apply LoadFiles_depth_stable; lia.
Qed.

Lemma LoadFiles_stage files c e :
  LoadFiles E files = (c, e) -> Stage E files c e.
Proof.
  rewrite LoadFiles_unfold. unfold LoadFiles_body.
  destruct (loadMetadata E newChart files) as [c0 [err|]] eqn:Hm.
  { intros [= <- <-]. by eapply AtMetadata. }
  destruct (classifyFiles E c0 ∅ files) as [[c1 subs] [err|]] eqn:Hc.
  { intros [= <- <-]. by eapply AtClassify. }
  destruct (Metadata c1) as [md|] eqn:Hmd.
  2: { intros [= <- <-]. by eapply AtMissing. }
  destruct (Validate E c1) as [err|] eqn:Hv.
  { intros [= <- <-]. eapply AtValidate; eauto. by rewrite Hmd. }
  intros H. eapply AtSubcharts; eauto. by rewrite Hmd.
Qed.


(** Once the first loop has gone through, the chart holds the whole input
    in [Raw] and the metadata decoded from the ["Chart.yaml"] entries. *)
Lemma LoadFiles_after_first_loop files c e :
  LoadFiles E files = (c, e) ->
  (forall cause, e <> Some (ErrCannotLoadChartYaml cause)) ->
  Raw c = toChartFile <$> files
  /\ Metadata c = foldl (decodeChartYaml E) None (chartYamls files).
Proof.
  intros H Hne. apply LoadFiles_stage in H.
  destruct H as [err Hm ->|c0 subs err Hm Hc ->|c0 subs Hm Hc _ ->
                |c0 subs err Hm Hc _ _ ->|c0 c1 subs Hm Hc _ _ Hl].
  - apply loadMetadata_error in Hm as (cause & _ & _ & _ & -> & _).
    by destruct (Hne cause).
  - apply loadMetadata_ok in Hm as [HR HM].
    apply classifyFiles_inv in Hc as (-> & -> & _). done.
  - apply loadMetadata_ok in Hm as [HR HM].
    apply classifyFiles_inv in Hc as (-> & -> & _). done.
  - apply loadMetadata_ok in Hm as [HR HM].
    apply classifyFiles_inv in Hc as (-> & -> & _). done.
  - apply loadMetadata_ok in Hm as [HR HM].
    apply classifyFiles_inv in Hc as (HR1 & HM1 & _).
    apply loadSubcharts_inv in Hl as (-> & -> & _).
    by rewrite HR1, HM1.
Qed.

(** C7: when [LoadFiles] succeeds, [Raw] is the input list itself: one
    entry per input file, with the same name and the same bytes, in input
    order, whatever else the file was classified as. *)
Theorem C7_raw_is_input files c :
  LoadFiles E files = (c, None) ->
  Raw c = toChartFile <$> files
  /\ length (Raw c) = length files
  /\ (forall (i : nat) f, files !! i = Some f ->
        exists x, Raw c !! i = Some x
                  /\ FileName x = Name f /\ FileData x = Data f).
Proof.
  intros H. apply LoadFiles_after_first_loop in H as [HR _]; [|done].
  rewrite HR. split; [done|]. split; [by rewrite length_fmap|].
  intros i f Hi. exists (toChartFile f).
  by rewrite list_lookup_fmap, Hi.
Qed.

(** C3 (amended): the metadata of the assembled chart is the outcome of
    decoding every ["Chart.yaml"] entry, in input order, into one and the
    same record; the last entry is decoded on top of what the earlier
    entries left there. *)
Theorem C3_metadata_decoded_in_order files c :
  LoadFiles E files = (c, None) ->
  Metadata c = foldl (decodeChartYaml E) None (chartYamls files)
  /\ (forall earlier last, chartYamls files = earlier ++ [last] ->
        Metadata c
        = decodeChartYaml E (foldl (decodeChartYaml E) None earlier) last).
Proof.
  intros H. apply LoadFiles_after_first_loop in H as [_ HM]; [|done].
  split; [done|]. intros earlier last Hl.
  by rewrite HM, Hl, foldl_app.
Qed.

(** *** Failures of the second loop *)

Lemma classifyFile_succeeds c subcharts f :
  (Name f = "Chart.lock" -> (unmarshalLock E (Data f)).2 = None) ->
  (Name f = "values.yaml" -> exists values, LoadValues E (Data f) = inr values) ->
  exists c' subcharts', classifyFile E c subcharts f = (c', subcharts', None).
Proof.
  intros Hlock Hvalues. unfold classifyFile.
  destruct (String.eqb_spec (Name f) "Chart.yaml"); [eauto|].
  destruct (String.eqb_spec (Name f) "Chart.lock") as [Hl|].
  { specialize (Hlock Hl).
    destruct (unmarshalLock E (Data f)) as [lock e]. simpl in Hlock.
    subst e. eauto. }
  destruct (String.eqb_spec (Name f) "values.yaml") as [Hv|].
  { destruct (Hvalues Hv) as [values ->]. eauto. }
  repeat case_match; eauto.
Qed.

Lemma classifyFiles_succeeds c subcharts files :
  (forall f, f ∈ files -> Name f = "Chart.lock" ->
     (unmarshalLock E (Data f)).2 = None) ->
  (forall f, f ∈ files -> Name f = "values.yaml" ->
     exists values, LoadValues E (Data f) = inr values) ->
  exists c' subcharts',
    classifyFiles E c subcharts files = (c', subcharts', None).
Proof.
  revert c subcharts.
  induction files as [|f files IH]; intros c subcharts Hl Hv; simpl;
    [eauto|].
  destruct (classifyFile_succeeds c subcharts f) as (c1 & s1 & ->).
  { apply Hl. left. }
  { apply Hv. left. }
  apply IH; intros g Hg; [apply Hl|apply Hv]; by right.
Qed.



(** C4 (amended): a file list without ["Chart.yaml"] always fails, and the
    chart has no metadata. The check for missing metadata comes after the
    second loop and before validation: the error is the metadata-missing
    error when every ["Chart.lock"] and ["values.yaml"] entry can be
    loaded, whatever the validator or the subcharts would say; when such an
    entry cannot be loaded, the first one that cannot decides: its parse
    error is returned instead of the metadata-missing error. *)
Theorem C4_missing_metadata files :
  chartYamls files = [] ->
  (exists c err,
     LoadFiles E files = (c, Some err) /\ Metadata c = None
     /\ (err = ErrChartYamlMissing
         \/ (exists cause, err = ErrCannotLoadChartLock cause)
         \/ (exists cause, err = ErrCannotLoadValues cause)))
  /\ ((forall f, f ∈ files -> Name f = "Chart.lock" ->
         (unmarshalLock E (Data f)).2 = None) ->
      (forall f, f ∈ files -> Name f = "values.yaml" ->
         exists values, LoadValues E (Data f) = inr values) ->
      exists c, LoadFiles E files = (c, Some ErrChartYamlMissing))
  /\ (forall pre f post,
        files = pre ++ f :: post ->
        (forall g, g ∈ pre -> Name g = "Chart.lock" ->
           (unmarshalLock E (Data g)).2 = None) ->
        (forall g, g ∈ pre -> Name g = "values.yaml" ->
           exists values, LoadValues E (Data g) = inr values) ->
        (forall cause,
           Name f = "Chart.lock" ->
           (unmarshalLock E (Data f)).2 = Some cause ->
           exists c,
             LoadFiles E files = (c, Some (ErrCannotLoadChartLock cause))
             /\ Metadata c = None)
        /\ (forall cause,
              Name f = "values.yaml" ->
              LoadValues E (Data f) = inl cause ->
              exists c,
                LoadFiles E files = (c, Some (ErrCannotLoadValues cause))
                /\ Metadata c = None)).
Proof.
  intros Hno.
  assert (forall f, f ∈ files -> Name f <> "Chart.yaml") as Hno'.
  { intros f Hf Hn.
    assert (f ∈ chartYamls files) as Hin
      by (apply list_elem_of_filter; done).
    rewrite Hno in Hin. by apply not_elem_of_nil in Hin. }
  pose proof (loadMetadata_no_chartYaml newChart files Hno') as Hm.
  split; [|split].
  - destruct (LoadFiles E files) as [c e] eqn:HL. exists c.
    apply LoadFiles_stage in HL.
    destruct HL as [err Hm' ->|c0 subs err Hm' Hc ->|c0 subs Hm' Hc HM ->
                   |c0 subs err Hm' Hc HM _ ->|c0 c1 subs Hm' Hc HM _ Hl];
      rewrite Hm in Hm'; simplify_eq.
    + apply classifyFiles_inv in Hc as (_ & HM & _ & _ & _ & He).
      exists err. split; [done|]. split; [done|]. right. by apply He.
    + exists ErrChartYamlMissing. split; [done|]. split; [done|]. by left.
    + apply classifyFiles_inv in Hc as (_ & HM' & _). by rewrite HM' in HM.
    + apply classifyFiles_inv in Hc as (_ & HM' & _). by rewrite HM' in HM.
  - intros Hl Hv. rewrite LoadFiles_unfold. unfold LoadFiles_body.
    rewrite Hm.
    destruct (classifyFiles_succeeds
                (withRaw newChart (Raw newChart ++ (toChartFile <$> files)))
                ∅ files Hl Hv) as (c1 & s1 & Hc).
    rewrite Hc. apply classifyFiles_inv in Hc as (_ & HM & _).
    simpl in HM. rewrite HM. eauto.
  - intros pre f post Hfiles Hl Hv.
    destruct (classifyFiles_succeeds
                (withRaw newChart (Raw newChart ++ (toChartFile <$> files)))
                ∅ pre Hl Hv) as (c1 & s1 & Hpre).
    pose proof (classifyFiles_inv _ _ _ _ _ _ Hpre) as (_ & HM1 & _).
    simpl in HM1.
    assert (forall c' s' err,
              classifyFile E c1 s1 f = (c', s', Some err) ->
              LoadFiles E files = (c', Some err)) as Hstep.
    { intros c' s' err Hf. rewrite LoadFiles_unfold. unfold LoadFiles_body.
      rewrite Hm. rewrite Hfiles at 2.
      rewrite classifyFiles_app, Hpre. simpl. by rewrite Hf. }
    split.
    + intros cause Hn Hbad. unfold classifyFile in Hstep.
      rewrite Hn in Hstep. simpl in Hstep.
      destruct (unmarshalLock E (Data f)) as [lock e]. simpl in Hbad. subst e.
      eexists. split; [eapply Hstep; reflexivity|done].
    + intros cause Hn Hbad. unfold classifyFile in Hstep.
      rewrite Hn in Hstep. simpl in Hstep. rewrite Hbad in Hstep.
      eexists. split; [eapply Hstep; reflexivity|done].
Qed.


(** *** What ends up in [Files] and in [Dependencies] *)

Lemma toChartFile_inj f g : toChartFile f = toChartFile g -> f = g.
Proof. destruct f, g. by intros [= -> ->]. Qed.

Lemma LoadFiles_Files files c e :
  LoadFiles E files = (c, e) ->
  forall x, x ∈ Files c ->
    exists g, g ∈ files /\ subchartKey g = None /\ x = toChartFile g.
Proof.
  intros H x Hx. apply LoadFiles_stage in H.
  assert (forall c0 c1 subs e1,
            loadMetadata E newChart files = (c0, None) ->
            classifyFiles E c0 ∅ files = (c1, subs, e1) ->
            x ∈ Files c1 ->
            exists g, g ∈ files /\ subchartKey g = None /\ x = toChartFile g)
    as Hcl.
  { intros c0 c1 subs e1 Hm Hc Hx1.
    apply loadMetadata_fields in Hm as (_ & _ & _ & _ & HF & _).
    apply classifyFiles_inv in Hc as (_ & _ & _ & HF1 & _).
    destruct (HF1 x Hx1) as [Hx0|?]; [|done].
    rewrite HF in Hx0. by apply not_elem_of_nil in Hx0. }
  destruct H as [err Hm ->|c0 subs err Hm Hc ->|c0 subs Hm Hc _ ->
                |c0 subs err Hm Hc _ _ ->|c0 c1 subs Hm Hc _ _ Hl]; eauto.
  - apply loadMetadata_fields in Hm as (_ & _ & _ & _ & HF & _).
    rewrite HF in Hx. by apply not_elem_of_nil in Hx.
  - apply loadSubcharts_inv in Hl as (_ & _ & HF & _).
    rewrite HF in Hx. eauto.
Qed.

Lemma LoadFiles_Dependencies files c e :
  LoadFiles E files = (c, e) ->
  exists gs c1,
    gs `sublist_of` rangeSubcharts E (subchartsFrom ∅ files)
    /\ Forall2 (fun g d =>
                  startsWithUnderscoreOrDot g.1 = false
                  /\ loadSubchart E (LoadFiles E) c1 g.1 g.2
                     = Loaded (inr d))
         gs (Dependencies c).
Proof.
  intros H. apply LoadFiles_stage in H.
  assert (forall c0 c1 subs e1,
            loadMetadata E newChart files = (c0, None) ->
            classifyFiles E c0 ∅ files = (c1, subs, e1) ->
            Dependencies c1 = []) as Hcl.
  { intros c0 c1 subs e1 Hm Hc.
    apply loadMetadata_fields in Hm as (_ & _ & _ & _ & _ & HD).
    apply classifyFiles_inv in Hc as (_ & _ & HD1 & _).
    by rewrite HD1, HD. }
  destruct H as [err Hm ->|c0 subs err Hm Hc ->|c0 subs Hm Hc _ ->
                |c0 subs err Hm Hc _ _ ->|c0 c1 subs Hm Hc _ _ Hl].
  - apply loadMetadata_fields in Hm as (_ & _ & _ & _ & _ & HD).
    exists [], c. rewrite HD. split; [apply sublist_nil_l|constructor].
  - exists [], c. rewrite (Hcl _ _ _ _ Hm Hc).
    split; [apply sublist_nil_l|constructor].
  - exists [], c. rewrite (Hcl _ _ _ _ Hm Hc).
    split; [apply sublist_nil_l|constructor].
  - exists [], c. rewrite (Hcl _ _ _ _ Hm Hc).
    split; [apply sublist_nil_l|constructor].
  - pose proof (Hcl _ _ _ _ Hm Hc) as HD.
    apply classifyFiles_inv in Hc as (_ & _ & _ & _ & Hs & _).
    rewrite <- (Hs eq_refl).
    apply loadSubcharts_inv in Hl as (_ & _ & _ & gs & ds & HD' & ? & ?).
    rewrite HD in HD'. simpl in HD'. rewrite HD'. by exists gs, c1.
Qed.

(** C8: a subchart group whose key begins with [_] or [.] yields no
    dependency, whatever its members contain: the dependencies of the
    chart are loaded, one each, from groups whose key does not begin so,
    and the switch skips such a group without looking at its members. A
    file of such a group is not in [Files], and it is in [Raw] as soon as
    the first loop has gone through (in particular on success). *)
Theorem C8_excluded_groups files c e :
  LoadFiles E files = (c, e) ->
  (exists gs c1,
     gs `sublist_of` rangeSubcharts E (subchartsFrom ∅ files)
     /\ Forall2 (fun g d =>
                   startsWithUnderscoreOrDot g.1 = false
                   /\ loadSubchart E (LoadFiles E) c1 g.1 g.2
                      = Loaded (inr d))
          gs (Dependencies c))
  /\ (forall n members c1,
        startsWithUnderscoreOrDot n = true ->
        loadSubchart E (LoadFiles E) c1 n members = Continue)
  /\ (forall f n,
        f ∈ files -> subchartKey f = Some n ->
        startsWithUnderscoreOrDot n = true ->
        (toChartFile f ∉ Files c)
        /\ ((forall cause, e <> Some (ErrCannotLoadChartYaml cause)) ->
            toChartFile f ∈ Raw c)).
Proof.
  intros H. split; [by eapply LoadFiles_Dependencies|]. split.
  - intros n members c1 Hn. unfold loadSubchart. by rewrite Hn.
  - intros f n Hf Hkey Hn. split.
    + intros Hx.
      destruct (LoadFiles_Files _ _ _ H _ Hx) as (g & _ & Hg & Heq).
      apply toChartFile_inj in Heq as ->. congruence.
    + intros Hne.
      destruct (LoadFiles_after_first_loop _ _ _ H Hne) as [-> _].
      by apply list_elem_of_fmap_2.
Qed.

(** *** Archive groups *)


(** *** Values documents *)

Lemma unmarshalMap_ok (raw : list byte) (m : gmap string Value) :
  unmarshalMap E raw = inr m <->
  YAMLToJSON E raw = inr (VMap m)
  \/ (YAMLToJSON E raw = inr VNull /\ m = ∅).
Proof.
  unfold unmarshalMap.
  destruct (YAMLToJSON E raw) as [e|[]]; split; intros H;
    simplify_eq; eauto; destruct H as [?|[? ?]]; by simplify_eq.
Qed.

Lemma unmarshalMap_not_mapping (raw : list byte) (v : Value) :
  YAMLToJSON E raw = inr v -> asMap v = None -> v <> VNull ->
  exists cause, unmarshalMap E raw = inl cause.
Proof.
  intros Hv Hmap Hnull. unfold unmarshalMap. rewrite Hv.
  destruct v; by eauto.
Qed.

Lemma mergeDocuments_error (docs : list (list byte)) (raw : list byte)
    (cause : string) :
  raw ∈ docs -> unmarshalMap E raw = inl cause ->
  forall values, exists cause',
    mergeDocuments E values docs = inl (ErrCannotUnmarshalYamlDocument cause').
Proof.
  intros Hin Hraw. induction docs as [|d docs IH]; intros values.
  { by apply not_elem_of_nil in Hin. }
  simpl. destruct (unmarshalMap E d) as [e|m] eqn:Hd; [eauto|].
  apply elem_of_cons in Hin as [->|Hin]; [congruence|]. by apply IH.
Qed.

Lemma classifyFile_values_ok c subcharts f c' subcharts' :
  Name f = "values.yaml" ->
  classifyFile E c subcharts f = (c', subcharts', None) ->
  exists values, LoadValues E (Data f) = inr values.
Proof.
  intros Hn. unfold classifyFile. rewrite Hn. simpl.
  destruct (LoadValues E (Data f)); [done|eauto].
Qed.

Lemma classifyFiles_values_ok c subcharts files c' subcharts' f :
  classifyFiles E c subcharts files = (c', subcharts', None) ->
  f ∈ files -> Name f = "values.yaml" ->
  exists values, LoadValues E (Data f) = inr values.
Proof.
  revert c subcharts.
  induction files as [|g files IH]; intros c subcharts H Hin Hn.
  { by apply not_elem_of_nil in Hin. }
  simpl in H.
  destruct (classifyFile E c subcharts g) as [[c1 s1] [e|]] eqn:Hg;
    [done|].
  apply elem_of_cons in Hin as [->|Hin].
  - by eapply classifyFile_values_ok.
  - by eapply IH.
Qed.

(** C10: a document of ["values.yaml"] that is valid YAML but neither a
    mapping nor null makes [LoadValues] fail with the unmarshal error, it
    is not skipped or coerced; [LoadFiles] then fails, and with the error
    that wraps the values error when nothing before that file fails. The
    only documents the decoder accepts are mappings and null, and null
    counts as the empty mapping. *)
Theorem C10_non_mapping_document files pre f post
    (docs : list (list byte)) (stop : option string)
    (raw : list byte) (v : Value) :
  files = pre ++ f :: post ->
  Name f = "values.yaml" ->
  readDocuments E (Data f) = (docs, stop) ->
  raw ∈ docs ->
  YAMLToJSON E raw = inr v -> asMap v = None -> v <> VNull ->
  (exists cause,
     LoadValues E (Data f) = inl (ErrCannotUnmarshalYamlDocument cause)
     /\ (exists c err, LoadFiles E files = (c, Some err))
     /\ (forall c0 c1 subcharts1,
           loadMetadata E newChart files = (c0, None) ->
           classifyFiles E c0 ∅ pre = (c1, subcharts1, None) ->
           LoadFiles E files
           = (c1, Some (ErrCannotLoadValues
                          (ErrCannotUnmarshalYamlDocument cause)))))
  /\ (forall raw' m,
        unmarshalMap E raw' = inr m <->
        YAMLToJSON E raw' = inr (VMap m)
        \/ (YAMLToJSON E raw' = inr VNull /\ m = ∅)).
Proof.
  intros -> Hn Hread Hin Hv Hmap Hnull. split; [|apply unmarshalMap_ok].
  destruct (unmarshalMap_not_mapping raw v Hv Hmap Hnull) as [cause0 Hraw].
  destruct (mergeDocuments_error docs raw cause0 Hin Hraw ∅)
    as [cause Hmerge].
  assert (LoadValues E (Data f)
          = inl (ErrCannotUnmarshalYamlDocument cause)) as HLV.
  { unfold LoadValues. by rewrite Hread, Hmerge. }
  exists cause. split; [done|]. split.
  - destruct (LoadFiles E (pre ++ f :: post)) as [c [err|]] eqn:HL; [eauto|].
    exfalso. apply LoadFiles_stage in HL.
    destruct HL as [err Hm He|c0 subs err Hm Hc He|c0 subs Hm Hc _ He
                   |c0 subs err Hm Hc _ _ He|c0 c1 subs Hm Hc _ _ Hl];
      try done.
    destruct (classifyFiles_values_ok _ _ _ _ _ f Hc) as [values Hok];
      [|done|congruence].
    apply elem_of_app. right. left.
  - intros c0 c1 s1 Hm Hc. rewrite LoadFiles_unfold. unfold LoadFiles_body.
    rewrite Hm, classifyFiles_app, Hc. simpl.
    unfold classifyFile. rewrite Hn. simpl. by rewrite HLV.
Qed.

(** *** The index expression [files[0]] *)

Lemma loadSubcharts_no_panic rec c
    (groups : list (string * list BufferedFile)) c' :
  (forall n fs, (n, fs) ∈ groups -> fs <> []) ->
  loadSubcharts E rec c groups <> (c', Some PanicIndexOutOfRange).
Proof.
  revert c. induction groups as [|[n fs] groups IH]; intros c Hne; simpl;
    [done|].
  assert (fs <> []) by (apply (Hne n); left).
  assert (forall n' fs', (n', fs') ∈ groups -> fs' <> [])
    by (intros n' fs' ?; apply (Hne n'); by right).
  destruct (loadSubchart E rec c n fs) as [|e|[e|sc]] eqn:Hsw; eauto.
  unfold loadSubchart in Hsw. intros [= _ ->].
  repeat case_match; simplify_eq.
Qed.

(** The groups built by the second loop are never empty, so [files[0]]
    cannot fail and [LoadFiles] never returns the panic marker. *)
Lemma LoadFiles_no_panic files c :
  LoadFiles E files <> (c, Some PanicIndexOutOfRange).
Proof.
  intros H. apply LoadFiles_stage in H.
  destruct H as [err Hm He|c0 subs err Hm Hc He|c0 subs Hm Hc _ He
                |c0 subs err Hm Hc _ _ He|c0 c1 subs Hm Hc _ _ Hl];
    simplify_eq.
  - apply loadMetadata_error in Hm as (? & ? & ? & ? & ? & _). done.
  - apply classifyFiles_inv in Hc as (_ & _ & _ & _ & _ & He).
    destruct (He _ eq_refl) as [[? ?]|[? ?]]; done.
  - apply classifyFiles_inv in Hc as (_ & _ & _ & _ & Hs & _).
    rewrite (Hs eq_refl) in Hl.
    apply loadSubcharts_no_panic in Hl; [done|].
    intros n fs Hin.
    apply (elem_of_Permutation_proper _ _ _ (rangeSubcharts_perm E _)) in Hin.
    apply elem_of_map_to_list in Hin.
    by destruct (subchartsFrom_bounded 0 ∅ files (groupsBounded_empty 0)
                   n fs Hin).
Qed.

(** The empty file list has no ["Chart.yaml"]. *)
Lemma LoadFiles_nil : LoadFiles E [] = (newChart, Some ErrChartYamlMissing).
Proof. by rewrite LoadFiles_unfold. Qed.

(** A directory group none of whose members lies below the group segment
    is loaded from the empty list, and so fails. *)
Lemma loadSubchart_only_stray_members c (n : string) files :
  startsWithUnderscoreOrDot n = false ->
  Ext n <> ".tgz" ->
  stripGroup files = [] ->
  loadSubchart E (LoadFiles E) c n files = Loaded (inl ErrChartYamlMissing).
Proof.
  intros Hn Hext Hstrip. unfold loadSubchart. rewrite Hn, Hstrip.
  apply String.eqb_neq in Hext. by rewrite Hext, LoadFiles_nil.
Qed.

End Loader.

(** ** The properties on the reference instance *)

(** C2 (the code departs from its own comment): a plain file directly under
    [charts/] is left out of the buffer of its group, as lines 155-162
    intend, but the group, now empty, is still loaded as a chart; that fails
    for lack of a ["Chart.yaml"], and so does the whole assembly. *)
Theorem C2_stray_file_under_charts_fails :
  subchartKey (Ref.file "charts/README.md" "hello") = Some "README.md"
  /\ stripGroup [subchartMember (Ref.file "charts/README.md" "hello")] = []
  /\ (LoadFiles Ref.env Ref.strayFile).2
     = Some (ErrUnpackingSubchart "README.md" "a" ErrChartYamlMissing)
  /\ Dependencies (LoadFiles Ref.env Ref.strayFile).1 = [].
Proof. repeat split; vm_compute; reflexivity. Qed.

(** C3, as stated, fails: with two ["Chart.yaml"] entries, the second of
    which sets the name only, the chart keeps the version of the first,
    while the second entry decoded alone has no version. *)
Lemma C3_last_entry_alone_counterexample :
  chartYamls Ref.twoChartYamls = [Ref.chartYaml; Ref.chartYamlB]
  /\ (LoadFiles Ref.env Ref.twoChartYamls).2 = None
  /\ Metadata (LoadFiles Ref.env Ref.twoChartYamls).1
     = Some (mkChartMetadata "b" "1.0.0" "v3")
  /\ decodeChartYaml Ref.env None Ref.chartYamlB
     = Some (mkChartMetadata "b" "" "v3")
  /\ Metadata (LoadFiles Ref.env Ref.twoChartYamls).1
     <> decodeChartYaml Ref.env None Ref.chartYamlB.
Proof. repeat split; vm_compute; (reflexivity || discriminate). Qed.

Lemma C3_metadata_decoded_in_order_witness :
  LoadFiles Ref.env Ref.twoChartYamls
  = ((LoadFiles Ref.env Ref.twoChartYamls).1, None)
  /\ Metadata (LoadFiles Ref.env Ref.twoChartYamls).1
     = foldl (decodeChartYaml Ref.env) None (chartYamls Ref.twoChartYamls).
Proof.
  assert (LoadFiles Ref.env Ref.twoChartYamls
          = ((LoadFiles Ref.env Ref.twoChartYamls).1, None)) as H
    by (vm_compute; reflexivity).
  split; [exact H|].
  exact (proj1 (C3_metadata_decoded_in_order Ref.env Ref.twoChartYamls _ H)).
Defined.

(** C4, as stated, fails: without ["Chart.yaml"] and with a ["Chart.lock"]
    that cannot be decoded, the error is the lock error of the second loop,
    not the metadata-missing error. *)
Lemma C4_lock_error_first_counterexample :
  chartYamls Ref.lockOnly = []
  /\ (LoadFiles Ref.env Ref.lockOnly).2
     = Some (ErrCannotLoadChartLock "yaml: did not find expected node content")
  /\ (LoadFiles Ref.env Ref.lockOnly).2 <> Some ErrChartYamlMissing.
Proof. repeat split; vm_compute; (reflexivity || discriminate). Qed.

Lemma C4_missing_metadata_witness :
  chartYamls Ref.noChartYaml = []
  /\ exists c err,
       LoadFiles Ref.env Ref.noChartYaml = (c, Some err)
       /\ Metadata c = None
       /\ (err = ErrChartYamlMissing
           \/ (exists cause, err = ErrCannotLoadChartLock cause)
           \/ (exists cause, err = ErrCannotLoadValues cause)).
Proof.
  assert (chartYamls Ref.noChartYaml = []) as H by (vm_compute; reflexivity).
  split; [exact H|].
  exact (proj1 (C4_missing_metadata Ref.env Ref.noChartYaml H)).
Defined.



Lemma C7_raw_is_input_witness :
  LoadFiles Ref.env Ref.sample = ((LoadFiles Ref.env Ref.sample).1, None)
  /\ Raw (LoadFiles Ref.env Ref.sample).1 = toChartFile <$> Ref.sample.
Proof.
  assert (LoadFiles Ref.env Ref.sample
          = ((LoadFiles Ref.env Ref.sample).1, None)) as H
    by (vm_compute; reflexivity).
  split; [exact H|].
  exact (proj1 (C7_raw_is_input Ref.env Ref.sample _ H)).
Defined.

Lemma C8_excluded_groups_witness :
  LoadFiles Ref.env Ref.sample = ((LoadFiles Ref.env Ref.sample).1, None)
  /\ subchartKey (Ref.file "charts/_h/z" "w") = Some "_h"
  /\ length (Dependencies (LoadFiles Ref.env Ref.sample).1) = 1
  /\ (forall f n,
        f ∈ Ref.sample -> subchartKey f = Some n ->
        startsWithUnderscoreOrDot n = true ->
        (toChartFile f ∉ Files (LoadFiles Ref.env Ref.sample).1)
        /\ ((forall cause, None <> Some (ErrCannotLoadChartYaml cause)) ->
            toChartFile f ∈ Raw (LoadFiles Ref.env Ref.sample).1)).
Proof.
  assert (LoadFiles Ref.env Ref.sample
          = ((LoadFiles Ref.env Ref.sample).1, None)) as H
    by (vm_compute; reflexivity).
  split; [exact H|]. split; [vm_compute; reflexivity|].
  split; [vm_compute; reflexivity|].
  exact (proj2 (proj2 (C8_excluded_groups Ref.env Ref.sample _ _ H))).
Defined.



Lemma C10_non_mapping_document_witness :
  YAMLToJSON Ref.env (Ref.bytes ("- a" +:+ Ref.nl +:+ Ref.nl))
  = inr (VSeq [VStr "a"])
  /\ exists cause,
       LoadValues Ref.env (Ref.bytes ("- a" +:+ Ref.nl))
       = inl (ErrCannotUnmarshalYamlDocument cause)
       /\ (exists c err, LoadFiles Ref.env Ref.sequenceValues = (c, Some err))
       /\ (forall c0 c1 subcharts1,
             loadMetadata Ref.env newChart Ref.sequenceValues = (c0, None) ->
             classifyFiles Ref.env c0 ∅ [Ref.chartYaml]
             = (c1, subcharts1, None) ->
             LoadFiles Ref.env Ref.sequenceValues
             = (c1, Some (ErrCannotLoadValues
                            (ErrCannotUnmarshalYamlDocument cause)))).
Proof.
  split; [vm_compute; reflexivity|].
  refine (proj1 (C10_non_mapping_document Ref.env Ref.sequenceValues
                   [Ref.chartYaml]
                   (Ref.file "values.yaml" ("- a" +:+ Ref.nl)) []
                   [Ref.bytes ("- a" +:+ Ref.nl +:+ Ref.nl)] None
                   (Ref.bytes ("- a" +:+ Ref.nl +:+ Ref.nl))
                   (VSeq [VStr "a"]) _ _ _ _ _ _ _)).
  - reflexivity.
  - reflexivity.
  - vm_compute. reflexivity.
  - left.
  - vm_compute. reflexivity.
  - reflexivity.
  - discriminate.
Defined.


(** * Further properties of the loader *)

(** ** MergeMaps *)

Lemma MergeMaps_empty_overlay (a : gmap string Value) : MergeMaps a ∅ = a.
Proof.
  apply map_eq. intros k. by rewrite lookup_MergeMaps, lookup_empty.
Qed.

(** X1: merging with an empty map on either side returns the other map. *)
Theorem X1_MergeMaps_empty (a b : gmap string Value) :
  MergeMaps a ∅ = a /\ MergeMaps ∅ b = b.
Proof.
  split; [apply MergeMaps_empty_overlay|].
  apply map_eq; intros k; rewrite lookup_MergeMaps, lookup_empty.
  by destruct (b !! k) as [[]|].
Qed.

(** X2: the keys of the merged map are the keys of the base together with
    the keys of the overlay; no key is ever dropped. *)
Theorem X2_MergeMaps_dom (a b : gmap string Value) :
  dom (MergeMaps a b) = dom a ∪ dom b.
Proof.
  apply set_eq. intros k.
  rewrite elem_of_union, !elem_of_dom, lookup_MergeMaps.
  destruct (a !! k) as [[]|], (b !! k) as [[]|]; simpl;
    (split; [intros [? ?]|intros [[? ?]|[? ?]]]); simplify_eq; eauto.
Qed.

(** X3: when no key holds a mapping on both sides, the merge is the plain
    overlay: every entry of the overlay, and the entries of the base under
    the other keys. *)
Theorem X3_MergeMaps_flat_overlay (a b : gmap string Value) :
  (forall k am bm,
     a !! k = Some (VMap am) -> b !! k = Some (VMap bm) -> False) ->
  MergeMaps a b = b ∪ a.
Proof.
  intros Hflat. apply map_eq. intros k.
  rewrite lookup_MergeMaps, lookup_union.
  destruct (b !! k) as [v|] eqn:Hb; simpl.
  - destruct v; try by destruct (a !! k).
    destruct (a !! k) as [[]|] eqn:Ha; simpl; try done.
    by destruct (Hflat k _ _ Ha Hb).
  - by destruct (a !! k).
Qed.

Lemma MergeMaps_absorb_size (n : nat) :
  forall a b : gmap string Value,
    vsize (VMap b) <= n -> MergeMaps a (MergeMaps a b) = MergeMaps a b.
Proof.
  induction n as [|n IH]; intros a b Hb; [simpl in Hb; lia|].
  apply map_eq. intros k. rewrite !lookup_MergeMaps.
  destruct (b !! k) as [v|] eqn:Hk; simpl.
  - apply vsize_lookup in Hk.
    destruct v, (a !! k) as [[]|]; simpl; try done.
    rewrite IH; [done|lia].
  - destruct (a !! k) as [[]|]; simpl; try done.
    by rewrite MergeMaps_self.
Qed.

(** X4: merging the base once more under a merge result changes nothing:
    the result already contains everything the base contributes. *)
Theorem X4_MergeMaps_absorbs_base (a b : gmap string Value) :
  MergeMaps a (MergeMaps a b) = MergeMaps a b.
Proof. by apply (MergeMaps_absorb_size (vsize (VMap b))). Qed.

(** ** LoadValues *)

Section Values.
Context (E : Env).

Lemma mergeDocuments_decoded (docs : list (list byte))
    (ms : list (gmap string Value)) :
  Forall2 (fun raw m => unmarshalMap E raw = inr m) docs ms ->
  forall values,
    mergeDocuments E values docs = inr (foldl MergeMaps values ms).
Proof.
  induction 1 as [|raw m docs ms Hraw _ IH]; intros values; simpl; [done|].
  by rewrite Hraw, IH.
Qed.

(** X5: when every document of the stream decodes, [LoadValues] returns the
    documents merged from left to right onto the empty map, each document
    overlaying the ones before it (the empty map for a stream without
    documents); unless the reader stopped on a read error, in which case
    that error is returned and what was merged is dropped. *)
Theorem X5_LoadValues_folds_documents (data : list byte)
    (docs : list (list byte)) (stop : option string)
    (ms : list (gmap string Value)) :
  readDocuments E data = (docs, stop) ->
  Forall2 (fun raw m => unmarshalMap E raw = inr m) docs ms ->
  LoadValues E data
  = match stop with
    | None => inr (foldl MergeMaps ∅ ms)
    | Some e => inl (ErrReadingYamlDocument e)
    end.
Proof.
  intros Hread Hdocs. unfold LoadValues.
  by rewrite Hread, (mergeDocuments_decoded docs ms Hdocs).
Qed.

Lemma mergeDocuments_app (values : gmap string Value)
    (docs1 docs2 : list (list byte)) :
  mergeDocuments E values (docs1 ++ docs2)
  = match mergeDocuments E values docs1 with
    | inl e => inl e
    | inr values1 => mergeDocuments E values1 docs2
    end.
Proof.
  revert values. induction docs1 as [|raw docs1 IH]; intros values; simpl;
    [done|].
  destruct (unmarshalMap E raw); [done|apply IH].
Qed.

(** X6: an empty (null) document is neutral: taking it out of the stream,
    wherever it stands, does not change what [LoadValues] returns. *)
Theorem X6_LoadValues_null_document_neutral (data1 data2 : list byte)
    (before after : list (list byte)) (raw : list byte)
    (stop : option string) :
  readDocuments E data1 = (before ++ raw :: after, stop) ->
  readDocuments E data2 = (before ++ after, stop) ->
  YAMLToJSON E raw = inr VNull ->
  LoadValues E data1 = LoadValues E data2.
Proof.
  intros H1 H2 Hnull. unfold LoadValues. rewrite H1, H2.
  rewrite !mergeDocuments_app.
  destruct (mergeDocuments E ∅ before) as [e|values]; [done|]. simpl.
  unfold unmarshalMap. rewrite Hnull.
  by rewrite MergeMaps_empty_overlay.
Qed.

(** X7: the last document wins: a key to which the last document gives a
    value that is not a mapping has that value in the result, whatever the
    earlier documents say. *)
Theorem X7_LoadValues_last_document_wins (data : list byte)
    (docs : list (list byte)) (ms : list (gmap string Value))
    (raw : list byte) (m : gmap string Value) (k : string) (v : Value) :
  readDocuments E data = (docs ++ [raw], None) ->
  Forall2 (fun raw m => unmarshalMap E raw = inr m) docs ms ->
  YAMLToJSON E raw = inr (VMap m) ->
  m !! k = Some v -> asMap v = None ->
  exists values, LoadValues E data = inr values /\ values !! k = Some v.
Proof.
  intros Hread Hdocs Hraw Hk Hv.
  assert (Forall2 (fun raw m => unmarshalMap E raw = inr m)
            (docs ++ [raw]) (ms ++ [m])) as Hall.
  { apply Forall2_app; [done|]. constructor; [|done].
    unfold unmarshalMap. by rewrite Hraw. }
  unfold LoadValues. rewrite Hread, (mergeDocuments_decoded _ _ Hall).
  eexists. split; [done|].
  rewrite foldl_app. simpl. rewrite lookup_MergeMaps, Hk.
  by destruct v.
Qed.

End Values.

(** ** LoadFiles: what the second loop stores *)

Lemma HasPrefix_templates (s : string) :
  HasPrefix s "templates/" = true -> exists r, s = "templates/" +:+ r.
Proof. apply prefix_append. Qed.

Section Contents.
Context (E : Env).
Implicit Types (c sc : Chart) (files : list BufferedFile).
Implicit Types (subcharts : Subcharts) (f : BufferedFile).

Lemma classifyFile_contents c subcharts f c' subcharts' e :
  classifyFile E c subcharts f = (c', subcharts', e) ->
  Templates c' = Templates c ++ (if isTemplate f then [toChartFile f] else [])
  /\ Files c' = Files c ++ (if keptInFiles f then [toChartFile f] else []).
Proof.
  unfold classifyFile, isTemplate, keptInFiles, isReservedName. intros H.
  destruct (String.eqb (Name f) "Chart.yaml") eqn:H1.
  { apply String.eqb_eq in H1. rewrite H1. simplify_eq/=.
    by rewrite !app_nil_r. }
  destruct (String.eqb (Name f) "Chart.lock") eqn:H2.
  { apply String.eqb_eq in H2. rewrite H2.
    destruct (unmarshalLock E (Data f)). simplify_eq/=.
    by rewrite !app_nil_r. }
  destruct (String.eqb (Name f) "values.yaml") eqn:H3.
  { apply String.eqb_eq in H3. rewrite H3.
    destruct (LoadValues E (Data f)); simplify_eq/=; by rewrite !app_nil_r. }
  destruct (String.eqb (Name f) "values.schema.json") eqn:H4.
  { apply String.eqb_eq in H4. rewrite H4. simplify_eq/=.
    by rewrite !app_nil_r. }
  destruct (HasPrefix (Name f) "templates/") eqn:H5.
  { simplify_eq/=. by rewrite app_nil_r. }
  destruct (HasPrefix (Name f) "charts/") eqn:H6.
  { destruct (String.eqb (Ext (Name f)) ".prov"); simplify_eq/=;
      by rewrite ?app_nil_r. }
  simplify_eq/=. by rewrite app_nil_r.
Qed.

Lemma classifyFiles_contents c subcharts files c' subcharts' :
  classifyFiles E c subcharts files = (c', subcharts', None) ->
  Templates c' = Templates c ++ (toChartFile <$> filter isTemplate files)
  /\ Files c' = Files c ++ (toChartFile <$> filter keptInFiles files).
Proof.
  revert c subcharts.
  induction files as [|f files IH]; intros c subcharts; simpl.
  { intros [= <- <-]. by rewrite !app_nil_r. }
  destruct (classifyFile E c subcharts f) as [[c1 s1] [err|]] eqn:Hf; [done|].
  apply classifyFile_contents in Hf as [HT HF].
  intros H. apply IH in H as [-> ->]. rewrite HT, HF, !filter_cons.
  destruct (isTemplate f), (keptInFiles f); simpl;
    by rewrite <- ?app_assoc, ?app_nil_r.
Qed.

Lemma loadSubcharts_fields rec c
    (groups : list (string * list BufferedFile)) c' e :
  loadSubcharts E rec c groups = (c', e) ->
  Lock c' = Lock c /\ Templates c' = Templates c /\ Values c' = Values c
  /\ Schema c' = Schema c.
Proof.
  revert c. induction groups as [|[n fs] groups IH]; intros c; simpl.
  { by intros [= <- <-]. }
  destruct (loadSubchart E rec c n fs) as [|err|[err|sc]].
  - apply IH.
  - by intros [= <- <-].
  - by intros [= <- <-].
  - intros H. by apply IH in H.
Qed.

(** A successful [LoadFiles] went through both loops, the metadata check,
    the validation and the loop over the groups. *)
Lemma LoadFiles_success files c :
  LoadFiles E files = (c, None) ->
  exists c0 c1 subcharts,
    loadMetadata E newChart files = (c0, None)
    /\ classifyFiles E c0 ∅ files = (c1, subcharts, None)
    /\ Metadata c1 <> None /\ Validate E c1 = None
    /\ loadSubcharts E (LoadFiles E) c1 (rangeSubcharts E subcharts)
       = (c, None).
Proof.
  intros H. apply LoadFiles_stage in H.
  destruct H as [err Hm He|c0 subs err Hm Hc He|c0 subs Hm Hc _ He
                |c0 subs err Hm Hc _ _ He|c0 c1 subs Hm Hc HM Hv Hl];
    try done.
  by exists c0, c1, subs.
Qed.

(** X8: on success [Templates] holds exactly the input files whose name
    starts with ["templates/"], and [Files] exactly the [.prov] files under
    ["charts/"] together with the files that have no reserved name and lie
    neither under ["templates/"] nor under ["charts/"]; both in input order,
    with name and bytes unchanged. *)
Theorem X8_templates_and_files files c :
  LoadFiles E files = (c, None) ->
  Templates c = toChartFile <$> filter isTemplate files
  /\ Files c = toChartFile <$> filter keptInFiles files.
Proof.
  intros H. apply LoadFiles_success in H as (c0 & c1 & subs & Hm & Hc & _ & _ & Hl).
  apply loadMetadata_fields in Hm as (_ & HT0 & _ & _ & HF0 & _).
  apply classifyFiles_contents in Hc as [HT1 HF1].
  apply loadSubcharts_fields in Hl as Hl'. destruct Hl' as (_ & HT & _ & _).
  apply loadSubcharts_inv in Hl as (_ & _ & HF & _).
  rewrite HT, HF, HT1, HF1, HT0, HF0. done.
Qed.

Lemma classification_predicates f :
  (isReservedName (Name f) = true /\ isTemplate f = false
   /\ keptInFiles f = false /\ subchartKey f = None)
  \/ (isReservedName (Name f) = false /\ isTemplate f = true
      /\ keptInFiles f = false /\ subchartKey f = None)
  \/ (isReservedName (Name f) = false /\ isTemplate f = false
      /\ keptInFiles f = true /\ subchartKey f = None)
  \/ (isReservedName (Name f) = false /\ isTemplate f = false
      /\ keptInFiles f = false /\ exists n, subchartKey f = Some n).
Proof.
  unfold isTemplate, keptInFiles, subchartKey.
  destruct (isReservedName (Name f)) eqn:Hr.
  { left. unfold isReservedName in Hr.
    repeat (apply orb_true_iff in Hr as [Hr|Hr]);
      apply String.eqb_eq in Hr; rewrite Hr; done. }
  destruct (HasPrefix (Name f) "templates/") eqn:Ht.
  { right. left. destruct (HasPrefix_templates _ Ht) as [r ->]. done. }
  destruct (HasPrefix (Name f) "charts/") eqn:Hc; simpl.
  - destruct (String.eqb (Ext (Name f)) ".prov"); simpl; eauto 10.
  - eauto 10.
Qed.

(** X9: one turn of the second loop stores the file in exactly one place.
    A file with a reserved name goes to no list and no buffer; a file under
    ["templates/"] is appended to [Templates] and to nothing else; a [.prov]
    file under ["charts/"] or a file no other case takes is appended to
    [Files] and to nothing else; any other file under ["charts/"] is
    appended to the buffer of its group and the chart is left as it was.
    Only a file with a reserved name can make the turn fail. *)
Theorem X9_classification_is_a_partition c subcharts f c' subcharts' e :
  classifyFile E c subcharts f = (c', subcharts', e) ->
  (isReservedName (Name f) = true
   /\ Templates c' = Templates c /\ Files c' = Files c
   /\ subcharts' = subcharts)
  \/ (isReservedName (Name f) = false /\ isTemplate f = true
      /\ Templates c' = Templates c ++ [toChartFile f]
      /\ Files c' = Files c /\ subcharts' = subcharts /\ e = None)
  \/ (isReservedName (Name f) = false /\ isTemplate f = false
      /\ subchartKey f = None
      /\ Templates c' = Templates c
      /\ Files c' = Files c ++ [toChartFile f]
      /\ subcharts' = subcharts /\ e = None)
  \/ (isReservedName (Name f) = false /\ isTemplate f = false
      /\ exists n,
           subchartKey f = Some n
           /\ c' = c
           /\ subcharts' = appendSubchart subcharts n (subchartMember f)
           /\ e = None).
Proof.
  intros H.
  assert (isReservedName (Name f) = false -> e = None) as Hok.
  { intros Hr. unfold isReservedName in Hr.
    apply orb_false_iff in Hr as [Hr _].
    apply orb_false_iff in Hr as [Hr Hv].
    apply orb_false_iff in Hr as [_ Hl].
    apply String.eqb_neq in Hl, Hv.
    destruct (classifyFile_succeeds E c subcharts f) as (c2 & s2 & H2);
      [done|done|].
    rewrite H2 in H. by simplify_eq. }
  pose proof (classifyFile_contents _ _ _ _ _ _ H) as [HT HF].
  destruct (classification_predicates f)
    as [(Hr & Ht & Hk & Hkey)|[(Hr & Ht & Hk & Hkey)
       |[(Hr & Ht & Hk & Hkey)|(Hr & Ht & Hk & n & Hkey)]]];
    rewrite Ht, Hk in *; rewrite ?app_nil_r in *.
  - left. apply (classifyFile_other E _ _ _ _ _ _ Hkey) in H as (-> & _).
    done.
  - right. left.
    apply (classifyFile_other E _ _ _ _ _ _ Hkey) in H as (-> & _).
    repeat split; try done. by apply Hok.
  - right. right. left.
    apply (classifyFile_other E _ _ _ _ _ _ Hkey) in H as (-> & _).
    repeat split; try done. by apply Hok.
  - right. right. right. repeat split; try done. exists n.
    rewrite (classifyFile_member E _ _ _ n Hkey) in H. by simplify_eq.
Qed.

Lemma classifyFile_Values_other c subcharts f c' subcharts' e :
  Name f <> "values.yaml" ->
  classifyFile E c subcharts f = (c', subcharts', e) ->
  Values c' = Values c.
Proof.
  intros Hn. unfold classifyFile.
  apply String.eqb_neq in Hn. rewrite Hn. intros H.
  repeat case_match; by simplify_eq/=.
Qed.

Lemma classifyFile_Schema_other c subcharts f c' subcharts' e :
  Name f <> "values.schema.json" ->
  classifyFile E c subcharts f = (c', subcharts', e) ->
  Schema c' = Schema c.
Proof.
  intros Hn. unfold classifyFile.
  apply String.eqb_neq in Hn. rewrite Hn. intros H.
  repeat case_match; by simplify_eq/=.
Qed.

Lemma classifyFiles_Values_other c subcharts files c' subcharts' e :
  (forall f, f ∈ files -> Name f <> "values.yaml") ->
  classifyFiles E c subcharts files = (c', subcharts', e) ->
  Values c' = Values c.
Proof.
  revert c subcharts.
  induction files as [|f files IH]; intros c subcharts Hno; simpl.
  { by intros [= <- <- <-]. }
  destruct (classifyFile E c subcharts f) as [[c1 s1] e1] eqn:Hf.
  apply classifyFile_Values_other in Hf; [|apply Hno; left].
  destruct e1 as [err|]; [by intros [= <- <- <-]|].
  intros H. apply IH in H; [congruence|].
  intros g Hg. apply Hno. by right.
Qed.

Lemma classifyFiles_Schema_other c subcharts files c' subcharts' e :
  (forall f, f ∈ files -> Name f <> "values.schema.json") ->
  classifyFiles E c subcharts files = (c', subcharts', e) ->
  Schema c' = Schema c.
Proof.
  revert c subcharts.
  induction files as [|f files IH]; intros c subcharts Hno; simpl.
  { by intros [= <- <- <-]. }
  destruct (classifyFile E c subcharts f) as [[c1 s1] e1] eqn:Hf.
  apply classifyFile_Schema_other in Hf; [|apply Hno; left].
  destruct e1 as [err|]; [by intros [= <- <- <-]|].
  intros H. apply IH in H; [congruence|].
  intros g Hg. apply Hno. by right.
Qed.

(** X10: the values of a chart come from one file only. On success, when
    [f] is the last entry named ["values.yaml"], the chart's values are what
    [LoadValues] returns for [f]; the values of earlier ["values.yaml"]
    entries are replaced, not merged. Without such an entry the chart has
    no values. *)
Theorem X10_last_values_file_wins files c :
  LoadFiles E files = (c, None) ->
  (forall pre f post,
     files = pre ++ f :: post -> Name f = "values.yaml" ->
     (forall g, g ∈ post -> Name g <> "values.yaml") ->
     exists values,
       LoadValues E (Data f) = inr values /\ Values c = Some values)
  /\ ((forall g, g ∈ files -> Name g <> "values.yaml") -> Values c = None).
Proof.
  intros H.
  apply LoadFiles_success in H as (c0 & c1 & subs & Hm & Hc & _ & _ & Hl).
  apply loadMetadata_fields in Hm as (_ & _ & HV0 & _).
  apply loadSubcharts_fields in Hl as (_ & _ & HV & _).
  split.
  - intros pre f post -> Hn Hpost.
    rewrite classifyFiles_app in Hc.
    destruct (classifyFiles E c0 ∅ pre) as [[c2 s2] [err|]]; [done|].
    simpl in Hc.
    destruct (classifyFile E c2 s2 f) as [[c3 s3] [err|]] eqn:Hf; [done|].
    apply (classifyFiles_Values_other _ _ _ _ _ _ Hpost) in Hc.
    unfold classifyFile in Hf. rewrite Hn in Hf. simpl in Hf.
    destruct (LoadValues E (Data f)) as [err|values]; [done|].
    simplify_eq/=. exists values. split; [done|]. by rewrite HV, Hc.
  - intros Hno. apply (classifyFiles_Values_other _ _ _ _ _ _ Hno) in Hc.
    by rewrite HV, Hc, HV0.
Qed.

(** X11: on success the schema is, byte for byte, the data of the last
    entry named ["values.schema.json"]; it is empty when there is none. *)
Theorem X11_last_schema_file_wins files c :
  LoadFiles E files = (c, None) ->
  (forall pre f post,
     files = pre ++ f :: post -> Name f = "values.schema.json" ->
     (forall g, g ∈ post -> Name g <> "values.schema.json") ->
     Schema c = Data f)
  /\ ((forall g, g ∈ files -> Name g <> "values.schema.json") ->
      Schema c = []).
Proof.
  intros H.
  apply LoadFiles_success in H as (c0 & c1 & subs & Hm & Hc & _ & _ & Hl).
  apply loadMetadata_fields in Hm as (_ & _ & _ & HS0 & _).
  apply loadSubcharts_fields in Hl as (_ & _ & _ & HS).
  split.
  - intros pre f post -> Hn Hpost.
    rewrite classifyFiles_app in Hc.
    destruct (classifyFiles E c0 ∅ pre) as [[c2 s2] [err|]]; [done|].
    simpl in Hc.
    destruct (classifyFile E c2 s2 f) as [[c3 s3] [err|]] eqn:Hf; [done|].
    apply (classifyFiles_Schema_other _ _ _ _ _ _ Hpost) in Hc.
    unfold classifyFile in Hf. rewrite Hn in Hf. simpl in Hf.
    simplify_eq/=. by rewrite HS, Hc.
  - intros Hno. apply (classifyFiles_Schema_other _ _ _ _ _ _ Hno) in Hc.
    by rewrite HS, Hc, HS0.
Qed.

Lemma defaultAPIVersion_nonempty (md : ChartMetadata) :
  APIVersion (defaultAPIVersion md) <> "".
Proof.
  unfold defaultAPIVersion.
  destruct (String.eqb_spec (APIVersion md) ""); [done|done].
Qed.

(** X12: a chart that [LoadFiles] returns without error has metadata, the
    input had a ["Chart.yaml"], and the API version of the metadata is never
    empty. *)
Theorem X12_success_has_metadata_with_api_version files c :
  LoadFiles E files = (c, None) ->
  chartYamls files <> []
  /\ exists md, Metadata c = Some md /\ APIVersion md <> "".
Proof.
  intros H.
  destruct (LoadFiles_after_first_loop E files c None H) as [_ HM]; [done|].
  apply LoadFiles_success in H as (c0 & c1 & subs & _ & _ & HM1 & _ & Hl).
  apply loadSubcharts_inv in Hl as (_ & HMc & _).
  rewrite <- HMc, HM in HM1.
  destruct (chartYamls files) as [|f0 l] using rev_ind; [done|].
  split; [by destruct l|].
  rewrite HM, foldl_app. simpl. unfold decodeChartYaml at 1.
  eexists. split; [done|]. apply defaultAPIVersion_nonempty.
Qed.

(** *** Dependencies *)

Lemma loadSubcharts_success rec c
    (groups : list (string * list BufferedFile)) c' :
  loadSubcharts E rec c groups = (c', None) ->
  exists ds,
    Dependencies c' = Dependencies c ++ ds
    /\ Forall2 (fun g d => loadSubchart E rec c g.1 g.2 = Loaded (inr d))
         (filter (fun g => startsWithUnderscoreOrDot g.1 = false) groups) ds.
Proof.
  revert c. induction groups as [|[n fs] groups IH]; intros c; simpl.
  { intros [= <-]. exists []. by rewrite app_nil_r. }
  rewrite filter_cons. simpl.
  destruct (loadSubchart E rec c n fs) as [|err|[err|sc]] eqn:Hsw; try done.
  - intros H. apply IH in H as (ds & -> & Hall).
    assert (startsWithUnderscoreOrDot n = true) as Hn.
    { unfold loadSubchart in Hsw.
      destruct (startsWithUnderscoreOrDot n); [done|].
      repeat case_match; simplify_eq. }
    rewrite decide_False by (rewrite Hn; done). by exists ds.
  - intros H. apply IH in H as (ds & -> & Hall).
    assert (startsWithUnderscoreOrDot n = false) as Hn.
    { unfold loadSubchart in Hsw.
      by destruct (startsWithUnderscoreOrDot n). }
    rewrite decide_True by done. exists (sc :: ds). simpl.
    rewrite <- app_assoc. split; [done|]. constructor; [done|].
    eapply Forall2_impl; [done|]. intros g d Hg. by rewrite <- Hg.
Qed.

Lemma loadSubchart_builtFrom c (n : string) files d :
  startsWithUnderscoreOrDot n = false ->
  loadSubchart E (LoadFiles E) c n files = Loaded (inr d) ->
  builtFrom E (n, files) d.
Proof.
  intros Hn. unfold loadSubchart, builtFrom. rewrite Hn. simpl.
  destruct (String.eqb (Ext n) ".tgz").
  - destruct files as [|file others]; [done|].
    destruct (String.eqb_spec (Name file) n); [|done].
    intros [= Ha]. by exists file, others.
  - destruct (LoadFiles E (stripGroup files)) as [sc [err|]]; simpl; [done|].
    by intros [= ->].
Qed.

(** X13: on success the dependencies are, one for one and in the order of
    the range, the charts built from the groups whose key does not begin
    with [_] or [.]: a [.tgz] group gives the chart [LoadArchive] returns
    for its first member, whose name is the key; any other group gives the
    chart [LoadFiles] returns, without error, for its members below the
    group segment. *)
Theorem X13_dependencies_on_success files c :
  LoadFiles E files = (c, None) ->
  Forall2 (builtFrom E)
    (filter (fun g => startsWithUnderscoreOrDot g.1 = false)
       (rangeSubcharts E (subchartsFrom ∅ files)))
    (Dependencies c).
Proof.
  intros H.
  apply LoadFiles_success in H as (c0 & c1 & subs & Hm & Hc & _ & _ & Hl).
  apply loadMetadata_fields in Hm as (_ & _ & _ & _ & _ & HD0).
  apply classifyFiles_inv in Hc as (_ & _ & HD1 & _ & Hs & _).
  rewrite <- (Hs eq_refl).
  apply loadSubcharts_success in Hl as (ds & HD & Hall).
  rewrite HD1, HD0 in HD. simpl in HD. rewrite HD.
  eapply Forall2_impl; [done|].
  intros [n fs] d Hg. simpl in Hg.
  eapply loadSubchart_builtFrom; [|done].
  unfold loadSubchart in Hg. by destruct (startsWithUnderscoreOrDot n).
Qed.

(** *** The subchart buffers *)

Lemma lookup_subchartsFrom subcharts files (n : string) :
  subchartsFrom subcharts files !! n
  = match filter (fun f => subchartKey f = Some n) files with
    | [] => subcharts !! n
    | members =>
        Some (default [] (subcharts !! n) ++ (subchartMember <$> members))
    end.
Proof.
  revert subcharts. induction files as [|f files IH]; intros subcharts; simpl;
    [done|].
  rewrite IH, filter_cons. clear IH.
  destruct (subchartKey f) as [k|] eqn:Hkey.
  - unfold appendSubchart. destruct (decide (k = n)) as [->|Hne].
    + rewrite decide_True by done. rewrite lookup_insert_eq. simpl.
      destruct (filter _ files); simpl; [done|].
      by rewrite <- app_assoc.
    + rewrite decide_False by congruence.
      by rewrite lookup_insert_ne.
  - by rewrite decide_False.
Qed.

(** X14: the buffer the second loop builds for a group key holds exactly
    the input files buffered under that key (not reserved, under
    ["charts/"], not [.prov]), in input order, each with ["charts/"] cut off
    its name and its bytes unchanged; there is no buffer for a key without
    such a file. *)
Theorem X14_group_buffer_contents c files c' subcharts (n : string) :
  classifyFiles E c ∅ files = (c', subcharts, None) ->
  subcharts !! n
  = match filter (fun f => subchartKey f = Some n) files with
    | [] => None
    | members => Some (subchartMember <$> members)
    end.
Proof.
  intros Hc. apply classifyFiles_inv in Hc as (_ & _ & _ & _ & Hs & _).
  rewrite (Hs eq_refl), lookup_subchartsFrom, lookup_empty. done.
Qed.

Lemma subchartsFrom_smaller files (n : string)
    (members : list BufferedFile) :
  subchartsFrom ∅ files !! n = Some members ->
  members <> []
  /\ namesWeight (stripGroup members) < namesWeight files.
Proof.
  intros Hn.
  destruct (subchartsFrom_bounded 0 ∅ files (groupsBounded_empty 0) n members Hn)
    as [Hne Hw].
  split; [done|].
  pose proof (namesWeight_stripGroup members).
  assert (0 < length members) by (destruct members; [done|simpl; lia]). lia.
Qed.

(** X15: every buffer is non-empty, so [files[0]] is always in range, and
    the names handed to the recursive call are, taken together, strictly
    shorter than the names of the input: the recursion of [LoadFiles] on
    in-memory files always ends. *)
Theorem X15_groups_nonempty_and_smaller c files c' subcharts
    (n : string) (members : list BufferedFile) :
  classifyFiles E c ∅ files = (c', subcharts, None) ->
  subcharts !! n = Some members ->
  members <> []
  /\ namesWeight (stripGroup members) < namesWeight files.
Proof.
  intros Hc Hn. apply classifyFiles_inv in Hc as (_ & _ & _ & _ & Hs & _).
  rewrite (Hs eq_refl) in Hn. by apply (subchartsFrom_smaller files n).
Qed.

(** *** Names of group members *)

Lemma substring_all (s : string) :
  String.substring 0 (String.length s) s = s.
Proof. induction s as [|a s IH]; simpl; [done|by rewrite IH]. Qed.

Lemma TrimPrefix_append (p r : string) : TrimPrefix (p +:+ r) p = r.
Proof.
  unfold TrimPrefix, HasPrefix.
  assert (String.prefix p (p +:+ r) = true) as ->.
  { induction p as [|a p IH]; simpl; [by destruct r|].
    by destruct (ascii_dec a a). }
  induction p as [|a p IH]; simpl.
  - rewrite Nat.sub_0_r. apply substring_all.
  - apply IH.
Qed.

Lemma cutSlash_spec (s h : string) (t : option string) :
  cutSlash s = (h, t) ->
  cutSlash h = (h, None)
  /\ s = match t with Some r => h +:+ "/" +:+ r | None => h end.
Proof.
  revert h t. induction s as [|a s IH]; intros h t; simpl.
  { by intros [= <- <-]. }
  destruct (Ascii.eqb_spec a "/") as [->|Hne].
  { by intros [= <- <-]. }
  destruct (cutSlash s) as [h' t'] eqn:Hs. intros [= <- <-].
  destruct (IH h' t' eq_refl) as [Hh ->]. simpl.
  apply Ascii.eqb_neq in Hne. rewrite Hne, Hh.
  split; [done|]. by destruct t'.
Qed.

(** X16: the name of a file buffered under the group key [n] is
    ["charts/"], then [n], then either nothing or ["/"] and a remainder; [n]
    itself holds no ["/"]. In the first case the file is left out of what
    the recursive call receives, in the second it is passed on under the
    remainder as its name, with its bytes unchanged. *)
Theorem X16_group_member_names f (n : string) :
  subchartKey f = Some n ->
  cutSlash n = (n, None)
  /\ ((Name f = "charts/" +:+ n
       /\ stripGroup [subchartMember f] = [])
      \/ exists rest,
           Name f = "charts/" +:+ n +:+ "/" +:+ rest
           /\ stripGroup [subchartMember f] = [mkBufferedFile rest (Data f)]).
Proof.
  unfold subchartKey.
  destruct (HasPrefix (Name f) "charts/") eqn:Hp; [|done].
  destruct (String.eqb (Ext (Name f)) ".prov"); [done|]. simpl.
  destruct (HasPrefix_charts _ Hp) as [r Hr].
  unfold stripGroup, subchartMember. simpl.
  rewrite Hr, TrimPrefix_append. unfold SplitN2.
  destruct (cutSlash r) as [h t] eqn:Hcut.
  destruct (cutSlash_spec r h t Hcut) as [Hh ->].
  destruct t as [rest|]; simpl; intros [= <-]; (split; [done|]).
  - right. by exists rest.
  - by left.
Qed.

(** *** Failures *)

(** X17: a ["Chart.yaml"] that cannot be decoded fails the assembly with
    the metadata error wherever it stands in the list, also behind a
    ["Chart.lock"] or ["values.yaml"] that cannot be loaded either: all
    metadata is decoded before any other file is looked at. The chart
    returned holds nothing but raw files and metadata. *)
Theorem X17_metadata_failure_comes_first files pre f post :
  files = pre ++ f :: post ->
  Name f = "Chart.yaml" ->
  (forall md, (unmarshalMetadata E (Data f) md).2 <> None) ->
  exists c cause,
    LoadFiles E files = (c, Some (ErrCannotLoadChartYaml cause))
    /\ Lock c = None /\ Templates c = [] /\ Values c = None
    /\ Schema c = [] /\ Files c = [] /\ Dependencies c = [].
Proof.
  intros -> Hn Hbad.
  assert (exists c err,
            loadMetadata E newChart (pre ++ f :: post) = (c, Some err))
    as (c & err & Hm).
  { rewrite loadMetadata_app.
    destruct (loadMetadata E newChart pre) as [c1 [err|]]; [eauto|].
    simpl. rewrite Hn. simpl.
    specialize (Hbad (default newMetadata (Metadata c1))).
    destruct (unmarshalMetadata E (Data f) _) as [md [err|]]; [eauto|done]. }
  exists c.
  destruct (loadMetadata_error E _ _ _ _ Hm) as (cause & _ & _ & _ & -> & _).
  exists cause. split.
  - rewrite LoadFiles_unfold. unfold LoadFiles_body. by rewrite Hm.
  - apply loadMetadata_fields in Hm as (-> & -> & -> & -> & -> & ->). done.
Qed.

Lemma loadSubcharts_failure rec c
    (groups : list (string * list BufferedFile)) c' err :
  loadSubcharts E rec c groups = (c', Some err) ->
  exists n members,
    (n, members) ∈ groups
    /\ startsWithUnderscoreOrDot n = false
    /\ (loadSubchart E rec c n members = ReturnError err
        \/ exists cause,
             loadSubchart E rec c n members = Loaded (inl cause)
             /\ err = ErrUnpackingSubchart n (ChartName c) cause).
Proof.
  revert c. induction groups as [|[n fs] groups IH]; intros c; simpl;
    [done|].
  assert (forall c1, ChartName c1 = ChartName c ->
            loadSubcharts E rec c1 groups = (c', Some err) ->
            exists n' members,
              (n', members) ∈ (n, fs) :: groups
              /\ startsWithUnderscoreOrDot n' = false
              /\ (loadSubchart E rec c n' members = ReturnError err
                  \/ exists cause,
                       loadSubchart E rec c n' members = Loaded (inl cause)
                       /\ err = ErrUnpackingSubchart n' (ChartName c) cause))
    as Hrest.
  { intros c1 Hname H.
    apply IH in H as (n' & ms & Hin & Hn' & Hcase).
    exists n', ms. split; [by right|]. split; [done|].
    rewrite <- Hname, (loadSubchart_ChartName E rec c c1) by done. done. }
  destruct (loadSubchart E rec c n fs) as [|e|[e|sc]] eqn:Hsw.
  - by apply Hrest.
  - intros [= <- <-]. exists n, fs. split; [left|].
    split; [|by left]. unfold loadSubchart in Hsw.
    by destruct (startsWithUnderscoreOrDot n).
  - intros [= <- <-]. exists n, fs. split; [left|].
    split; [|right; eauto]. unfold loadSubchart in Hsw.
    by destruct (startsWithUnderscoreOrDot n).
  - by apply Hrest.
Qed.

(** X18: an error of the subchart stage names a real group and the chart
    itself. The unpacking error carries the key of a group of the input that
    does not begin with [_] or [.], the name of the chart, and as its cause
    the error [LoadArchive] or the recursive [LoadFiles] returned for that
    group; the naming error carries the name of the chart, a key with
    extension [.tgz] and the name of the first member of that group, which
    differs from the key. *)
Theorem X18_subchart_errors_name_their_group files c err :
  LoadFiles E files = (c, Some err) ->
  (forall n parent cause,
     err = ErrUnpackingSubchart n parent cause ->
     parent = ChartName c
     /\ startsWithUnderscoreOrDot n = false
     /\ exists members,
          subchartsFrom ∅ files !! n = Some members
          /\ ((Ext n = ".tgz"
               /\ exists file others,
                    members = file :: others /\ Name file = n
                    /\ LoadArchive E (Data file) = inl cause)
              \/ (Ext n <> ".tgz"
                  /\ exists sc,
                       LoadFiles E (stripGroup members) = (sc, Some cause))))
  /\ (forall parent n got,
        err = ErrSubchartTar parent n got ->
        parent = ChartName c
        /\ startsWithUnderscoreOrDot n = false
        /\ Ext n = ".tgz" /\ got <> n
        /\ exists file others,
             subchartsFrom ∅ files !! n = Some (file :: others)
             /\ Name file = got).
Proof.
  intros H. apply LoadFiles_stage in H.
  destruct H as [e Hm He|c0 subs e Hm Hc He|c0 subs Hm Hc _ He
                |c0 subs e Hm Hc _ _ He|c0 c1 subs Hm Hc _ _ Hl].
  - apply loadMetadata_error in Hm as (? & _ & _ & _ & -> & _).
    simplify_eq. by split.
  - apply classifyFiles_inv in Hc as (_ & _ & _ & _ & _ & Hk).
    destruct (Hk _ eq_refl) as [[? ->]|[? ->]]; simplify_eq; by split.
  - simplify_eq. by split.
  - simplify_eq. by split.
  - apply classifyFiles_inv in Hc as (_ & _ & _ & _ & Hs & _).
    pose proof (loadSubcharts_inv E _ _ _ _ _ Hl) as (_ & HM & _).
    assert (ChartName c = ChartName c1) as Hname
      by (unfold ChartName; by rewrite HM).
    apply loadSubcharts_failure in Hl as (n0 & ms & Hin & Hn0 & Hcase).
    rewrite (Hs eq_refl) in Hin.
    apply (elem_of_Permutation_proper _ _ _ (rangeSubcharts_perm E _)) in Hin.
    apply elem_of_map_to_list in Hin.
    unfold loadSubchart in Hcase. rewrite Hn0 in Hcase.
    destruct (String.eqb_spec (Ext n0) ".tgz") as [Hext|Hext].
    + destruct ms as [|file others].
      { destruct Hcase as [[= <-]|(? & [=] & _)]. by split. }
      destruct (String.eqb_spec (Name file) n0) as [Hfile|Hfile].
      * destruct Hcase as [[=]|(cause & [= Ha] & ->)].
        split; [|done]. intros n parent cause' [= <- <- <-].
        rewrite Hname. split; [done|]. split; [done|].
        exists (file :: others). split; [done|]. left. split; [done|].
        by exists file, others.
      * destruct Hcase as [[= <-]|(? & [=] & _)].
        split; [done|]. intros parent n got [= <- <- <-].
        rewrite Hname. repeat split; try done. by exists file, others.
    + destruct Hcase as [[=]|(cause & [= Ha] & ->)].
      split; [|done]. intros n parent cause' [= <- <- <-].
      rewrite Hname. split; [done|]. split; [done|].
      exists ms. split; [done|]. right. split; [done|].
      destruct (LoadFiles E (stripGroup ms)) as [sc [e|]]; simpl in Ha;
        [|done].
      simplify_eq. by exists sc.
Qed.

End Contents.

(** ** The order of the range over the subchart map *)

Section Order.
Context (E1 E2 : Env) (Hsame : sameCollaborators E1 E2).
Implicit Types (c : Chart) (files : list BufferedFile).
Implicit Types (subcharts : Subcharts) (f : BufferedFile).

Lemma loadMetadata_same c files :
  loadMetadata E1 c files = loadMetadata E2 c files.
Proof.
  destruct Hsame as (Hmd & _).
  revert c. induction files as [|f files IH]; intros c; simpl; [done|].
  rewrite Hmd. destruct (String.eqb (Name f) "Chart.yaml"); [|apply IH].
  destruct (unmarshalMetadata E2 (Data f) _) as [md [err|]]; [done|apply IH].
Qed.

Lemma LoadValues_same (data : list byte) :
  LoadValues E1 data = LoadValues E2 data.
Proof.
  destruct Hsame as (_ & _ & Hjson & Hread & _).
  unfold LoadValues. rewrite Hread.
  destruct (readDocuments E2 data) as [docs stop].
  assert (forall values,
            mergeDocuments E1 values docs = mergeDocuments E2 values docs)
    as ->; [|done].
  induction docs as [|raw docs IH]; intros values; simpl; [done|].
  unfold unmarshalMap. rewrite Hjson.
  destruct (YAMLToJSON E2 raw) as [e|[]]; try done; apply IH.
Qed.

Lemma classifyFiles_same c subcharts files :
  classifyFiles E1 c subcharts files = classifyFiles E2 c subcharts files.
Proof.
  destruct Hsame as (_ & Hlock & _).
  revert c subcharts.
  induction files as [|f files IH]; intros c subcharts; simpl; [done|].
  assert (classifyFile E1 c subcharts f = classifyFile E2 c subcharts f)
    as ->.
  { unfold classifyFile. by rewrite Hlock, LoadValues_same. }
  destruct (classifyFile E2 c subcharts f) as [[c1 s1] [err|]]; [done|].
  apply IH.
Qed.

Lemma groupLoads_chart (E : Env) rec c1 c2
    (g : string * list BufferedFile) :
  groupLoads E rec c1 g <-> groupLoads E rec c2 g.
Proof.
  unfold groupLoads, loadSubchart. by repeat case_match.
Qed.

Lemma loadSubcharts_loads (E : Env) rec c
    (groups : list (string * list BufferedFile)) :
  (loadSubcharts E rec c groups).2 = None
  <-> Forall (groupLoads E rec c) groups.
Proof.
  revert c. induction groups as [|[n fs] groups IH]; intros c; simpl.
  { split; [constructor|done]. }
  rewrite Forall_cons. unfold groupLoads at 1. simpl.
  destruct (loadSubchart E rec c n fs) as [|err|[err|sc]]; simpl.
  - rewrite IH. tauto.
  - split; [done|tauto].
  - split; [done|tauto].
  - rewrite IH. split.
    + intros H. split; [done|].
      eapply Forall_impl; [done|]. intros g. by apply groupLoads_chart.
    + intros [_ H].
      eapply Forall_impl; [done|]. intros g. by apply groupLoads_chart.
Qed.

Lemma groupLoads_same rec1 rec2 c (g : string * list BufferedFile) :
  ((rec1 (stripGroup g.2)).2 = None <-> (rec2 (stripGroup g.2)).2 = None) ->
  groupLoads E1 rec1 c g <-> groupLoads E2 rec2 c g.
Proof.
  destruct Hsame as (_ & _ & _ & _ & _ & Harchive).
  intros Hrec. unfold groupLoads, loadSubchart.
  destruct (startsWithUnderscoreOrDot g.1); [done|].
  destruct (String.eqb (Ext g.1) ".tgz").
  - destruct g.2 as [|file others]; [done|].
    rewrite Harchive. by repeat case_match.
  - destruct (rec1 (stripGroup g.2)) as [sc1 [e1|]],
             (rec2 (stripGroup g.2)) as [sc2 [e2|]]; simpl in *;
      try done; destruct Hrec as [H1 H2]; try by specialize (H1 eq_refl).
    by specialize (H2 eq_refl).
Qed.

Lemma LoadFiles_succeeds_same (k : nat) :
  forall files, namesWeight files < k ->
    (LoadFiles E1 files).2 = None <-> (LoadFiles E2 files).2 = None.
Proof.
  induction k as [|k IH]; intros files Hk; [lia|].
  rewrite (LoadFiles_unfold E1), (LoadFiles_unfold E2).
  unfold LoadFiles_body. rewrite loadMetadata_same.
  destruct (loadMetadata E2 newChart files) as [c0 [err|]]; [done|].
  rewrite classifyFiles_same.
  destruct (classifyFiles E2 c0 ∅ files) as [[c1 subs] [err|]] eqn:Hc;
    [done|].
  destruct (Metadata c1); [|done].
  destruct Hsame as (_ & _ & _ & _ & Hv & _). rewrite Hv.
  destruct (Validate E2 c1); [done|].
  rewrite !loadSubcharts_loads.
  rewrite (rangeSubcharts_perm E1), (rangeSubcharts_perm E2).
  rewrite !Forall_forall. apply forall_proper. intros [n fs].
  apply classifyFiles_inv in Hc as (_ & _ & _ & _ & Hs & _).
  split; intros H Hin; specialize (H Hin);
    (eapply groupLoads_same; [|done]); simpl; apply IH.
  all: apply elem_of_map_to_list in Hin.
  all: rewrite (Hs eq_refl) in Hin.
  all: destruct (subchartsFrom_smaller files n fs Hin).
  all: lia.
Qed.

(** X19: the order in which the subchart map is ranged over decides
    neither whether [LoadFiles] succeeds nor anything of the chart but its
    dependencies. With the same decoders, reader, validator and archive
    loader, two runs that range in different orders both succeed or both
    fail, return the same raw files, metadata, lock, templates, values,
    schema and files, and on success the same number of dependencies. *)
Theorem X19_range_order_independence files :
  ((LoadFiles E1 files).2 = None <-> (LoadFiles E2 files).2 = None)
  /\ Raw (LoadFiles E1 files).1 = Raw (LoadFiles E2 files).1
  /\ Metadata (LoadFiles E1 files).1 = Metadata (LoadFiles E2 files).1
  /\ Lock (LoadFiles E1 files).1 = Lock (LoadFiles E2 files).1
  /\ Templates (LoadFiles E1 files).1 = Templates (LoadFiles E2 files).1
  /\ Values (LoadFiles E1 files).1 = Values (LoadFiles E2 files).1
  /\ Schema (LoadFiles E1 files).1 = Schema (LoadFiles E2 files).1
  /\ Files (LoadFiles E1 files).1 = Files (LoadFiles E2 files).1
  /\ ((LoadFiles E1 files).2 = None ->
      length (Dependencies (LoadFiles E1 files).1)
      = length (Dependencies (LoadFiles E2 files).1)).
Proof.
  split; [apply (LoadFiles_succeeds_same (S (namesWeight files))); lia|].
  pose proof (LoadFiles_succeeds_same (S (namesWeight files)) files
                (Nat.lt_succ_diag_r _)) as Hiff.
  revert Hiff.
  rewrite (LoadFiles_unfold E1), (LoadFiles_unfold E2).
  unfold LoadFiles_body. rewrite loadMetadata_same.
  destruct (loadMetadata E2 newChart files) as [c0 [err|]];
    [by repeat split|].
  rewrite classifyFiles_same.
  destruct (classifyFiles E2 c0 ∅ files) as [[c1 subs] [err|]];
    [by repeat split|].
  destruct (Metadata c1) eqn:HM1; [|by repeat split].
  destruct Hsame as (_ & _ & _ & _ & Hv & _). rewrite Hv.
  destruct (Validate E2 c1); [by repeat split|].
  destruct (loadSubcharts E1 (LoadFiles E1) c1 (rangeSubcharts E1 subs))
    as [r1 e1] eqn:H1.
  destruct (loadSubcharts E2 (LoadFiles E2) c1 (rangeSubcharts E2 subs))
    as [r2 e2] eqn:H2.
  simpl. intros Hiff.
  destruct (loadSubcharts_inv E1 _ _ _ _ _ H1) as (-> & -> & -> & _).
  destruct (loadSubcharts_inv E2 _ _ _ _ _ H2) as (-> & -> & -> & _).
  destruct (loadSubcharts_fields E1 _ _ _ _ _ H1) as (-> & -> & -> & ->).
  destruct (loadSubcharts_fields E2 _ _ _ _ _ H2) as (-> & -> & -> & ->).
  repeat split; try done.
  intros ->. rewrite (proj1 Hiff eq_refl) in H2.
  apply loadSubcharts_success in H1 as (ds1 & -> & Hall1).
  apply loadSubcharts_success in H2 as (ds2 & -> & Hall2).
  apply Forall2_length in Hall1, Hall2.
  rewrite !length_app, <- Hall1, <- Hall2.
  by rewrite (rangeSubcharts_perm E1), (rangeSubcharts_perm E2).
Qed.

End Order.

(** ** Composition of the stages *)

Section Composition.
Context (E : Env).
Implicit Types (c : Chart) (files : list BufferedFile).

(** X20: a dependency built from a directory group is itself an assembled
    chart: its raw files are the members of the group that lie below the
    group segment, under their names relative to the subchart, in input
    order, and it has metadata of its own. *)
Theorem X20_directory_dependency_is_assembled files c :
  LoadFiles E files = (c, None) ->
  Forall2 (fun g d =>
             Ext g.1 <> ".tgz" ->
             Raw d = toChartFile <$> stripGroup g.2
             /\ Metadata d
                = foldl (decodeChartYaml E) None (chartYamls (stripGroup g.2))
             /\ Metadata d <> None)
    (filter (fun g => startsWithUnderscoreOrDot g.1 = false)
       (rangeSubcharts E (subchartsFrom ∅ files)))
    (Dependencies c).
Proof.
  intros H.
  apply LoadFiles_success in H as (c0 & c1 & subs & Hm & Hc & _ & _ & Hl).
  apply loadMetadata_fields in Hm as (_ & _ & _ & _ & _ & HD0).
  apply classifyFiles_inv in Hc as (_ & _ & HD1 & _ & Hs & _).
  rewrite <- (Hs eq_refl).
  apply loadSubcharts_success in Hl as (ds & HD & Hall).
  rewrite HD1, HD0 in HD. simpl in HD. rewrite HD.
  eapply Forall2_impl; [done|].
  intros [n fs] d Hg Hext. simpl in *.
  unfold loadSubchart in Hg.
  destruct (startsWithUnderscoreOrDot n); [done|].
  apply String.eqb_neq in Hext. rewrite Hext in Hg.
  destruct (LoadFiles E (stripGroup fs)) as [sc [err|]] eqn:Hsc;
    simpl in Hg; [done|].
  simplify_eq.
  destruct (LoadFiles_after_first_loop E _ _ _ Hsc) as [HR HM]; [done|].
  split; [done|]. split; [done|].
  apply LoadFiles_success in Hsc as (? & c2 & ? & _ & _ & HM2 & _ & Hl2).
  apply loadSubcharts_inv in Hl2 as (_ & -> & _). done.
Qed.

(** X21: validation is run on the chart as it stands before any subchart
    is loaded: on success the validator has accepted the chart with an
    empty list of dependencies; the dependencies are attached afterwards. *)
Theorem X21_validation_precedes_dependencies files c :
  LoadFiles E files = (c, None) ->
  Validate E (mkChart (Raw c) (Metadata c) (Lock c) (Templates c)
                (Values c) (Schema c) (Files c) [])
  = None.
Proof.
  intros H.
  apply LoadFiles_success in H as (c0 & c1 & subs & Hm & Hc & _ & Hv & Hl).
  apply loadMetadata_fields in Hm as (_ & _ & _ & _ & _ & HD0).
  apply classifyFiles_inv in Hc as (_ & _ & HD1 & _).
  destruct (loadSubcharts_inv E _ _ _ _ _ Hl) as (-> & -> & -> & _).
  destruct (loadSubcharts_fields E _ _ _ _ _ Hl) as (-> & -> & -> & ->).
  rewrite HD0 in HD1. destruct c1. simpl in *. by subst.
Qed.

(** X22: the first document that cannot be decoded decides the outcome of
    [LoadValues]: the error is the unmarshal error of that document,
    whatever follows it in the stream and even when the reader ends on a
    read error. *)
Theorem X22_first_bad_document_decides (data : list byte)
    (before after : list (list byte)) (raw : list byte)
    (stop : option string) (ms : list (gmap string Value)) (cause : string) :
  readDocuments E data = (before ++ raw :: after, stop) ->
  Forall2 (fun raw m => unmarshalMap E raw = inr m) before ms ->
  unmarshalMap E raw = inl cause ->
  LoadValues E data = inl (ErrCannotUnmarshalYamlDocument cause).
Proof.
  intros Hread Hbefore Hraw. unfold LoadValues.
  rewrite Hread, mergeDocuments_app, (mergeDocuments_decoded E _ _ Hbefore).
  simpl. by rewrite Hraw.
Qed.

End Composition.

(** ** The further properties on the reference instance *)

Lemma X3_MergeMaps_flat_overlay_witness :
  MergeMaps {[ "x" := VNum 1 ]}
            {[ "x" := VMap {[ "a" := VNum 2 ]}; "y" := VStr "s" ]}
  = ({[ "x" := VMap {[ "a" := VNum 2 ]}; "y" := VStr "s" ]} : gmap string Value)
    ∪ {[ "x" := VNum 1 ]}.
Proof.
  apply X3_MergeMaps_flat_overlay.
  intros k am bm Ha _. apply lookup_singleton_Some in Ha as [_ Ha].
  discriminate.
Defined.

Lemma X5_LoadValues_folds_documents_witness :
  LoadValues Ref.env More.twoDocuments
  = inr (foldl MergeMaps ∅
           [ ({[ "a" := VStr "b" ]} : gmap string Value);
             {[ "c" := VStr "d" ]} ]).
Proof.
  apply (X5_LoadValues_folds_documents Ref.env More.twoDocuments
           (readDocuments Ref.env More.twoDocuments).1 None).
  - vm_compute. reflexivity.
  - vm_compute. repeat constructor.
Defined.

Lemma X6_LoadValues_null_document_neutral_witness :
  YAMLToJSON More.envComments (Ref.bytes ("# none" +:+ Ref.nl)) = inr VNull
  /\ LoadValues More.envComments More.withCommentDocument
     = LoadValues More.envComments More.twoDocuments.
Proof.
  split; [vm_compute; reflexivity|].
  apply (X6_LoadValues_null_document_neutral More.envComments
           More.withCommentDocument More.twoDocuments
           [Ref.bytes ("a: b" +:+ Ref.nl)]
           [Ref.bytes ("c: d" +:+ Ref.nl +:+ Ref.nl)]
           (Ref.bytes ("# none" +:+ Ref.nl)) None).
  - vm_compute. reflexivity.
  - vm_compute. reflexivity.
  - vm_compute. reflexivity.
Defined.

Lemma X7_LoadValues_last_document_wins_witness :
  exists values,
    LoadValues Ref.env More.overridingDocuments = inr values
    /\ values !! "a" = Some (VStr "z").
Proof.
  apply (X7_LoadValues_last_document_wins Ref.env More.overridingDocuments
           [Ref.bytes ("a: b" +:+ Ref.nl)] [ {[ "a" := VStr "b" ]} ]
           (Ref.bytes ("a: z" +:+ Ref.nl +:+ Ref.nl))
           {[ "a" := VStr "z" ]} "a" (VStr "z")).
  - vm_compute. reflexivity.
  - vm_compute. repeat constructor.
  - vm_compute. reflexivity.
  - vm_compute. reflexivity.
  - reflexivity.
Defined.

Lemma X8_templates_and_files_witness :
  LoadFiles Ref.env Ref.sample = ((LoadFiles Ref.env Ref.sample).1, None)
  /\ Templates (LoadFiles Ref.env Ref.sample).1
     = toChartFile <$> filter isTemplate Ref.sample
  /\ Files (LoadFiles Ref.env Ref.sample).1
     = toChartFile <$> filter keptInFiles Ref.sample.
Proof.
  assert (LoadFiles Ref.env Ref.sample
          = ((LoadFiles Ref.env Ref.sample).1, None)) as H
    by (vm_compute; reflexivity).
  split; [exact H|].
  exact (X8_templates_and_files Ref.env Ref.sample _ H).
Defined.

Lemma X10_last_values_file_wins_witness :
  exists values,
    LoadValues Ref.env
      (Ref.bytes ("a: b" +:+ Ref.nl +:+ "---" +:+ Ref.nl +:+ "c: d" +:+ Ref.nl))
    = inr values
    /\ Values (LoadFiles Ref.env Ref.sample).1 = Some values.
Proof.
  assert (LoadFiles Ref.env Ref.sample
          = ((LoadFiles Ref.env Ref.sample).1, None)) as H
    by (vm_compute; reflexivity).
  refine (proj1 (X10_last_values_file_wins Ref.env Ref.sample _ H)
                [Ref.chartYaml]
                (Ref.file "values.yaml"
                   ("a: b" +:+ Ref.nl +:+ "---" +:+ Ref.nl +:+ "c: d"
                    +:+ Ref.nl))
                _ eq_refl eq_refl _).
  intros g Hg. rewrite !elem_of_cons, elem_of_nil in Hg.
  destruct_or!; subst; done.
Defined.

Lemma X11_last_schema_file_wins_witness :
  LoadFiles Ref.env More.withSchema
  = ((LoadFiles Ref.env More.withSchema).1, None)
  /\ Schema (LoadFiles Ref.env More.withSchema).1 = Ref.bytes "{}".
Proof.
  assert (LoadFiles Ref.env More.withSchema
          = ((LoadFiles Ref.env More.withSchema).1, None)) as H
    by (vm_compute; reflexivity).
  split; [exact H|].
  refine (proj1 (X11_last_schema_file_wins Ref.env More.withSchema _ H)
                [Ref.chartYaml] More.schemaFile _ eq_refl eq_refl _).
  intros g Hg. rewrite !elem_of_cons, elem_of_nil in Hg.
  destruct_or!; subst; done.
Defined.

Lemma X12_success_has_metadata_with_api_version_witness :
  chartYamls Ref.sample <> []
  /\ exists md,
       Metadata (LoadFiles Ref.env Ref.sample).1 = Some md
       /\ APIVersion md <> "".
Proof.
  apply (X12_success_has_metadata_with_api_version Ref.env Ref.sample).
  vm_compute. reflexivity.
Defined.

Lemma X13_dependencies_on_success_witness :
  Forall2 (builtFrom Ref.env)
    (filter (fun g => startsWithUnderscoreOrDot g.1 = false)
       (rangeSubcharts Ref.env (subchartsFrom ∅ Ref.sample)))
    (Dependencies (LoadFiles Ref.env Ref.sample).1).
Proof.
  apply (X13_dependencies_on_success Ref.env Ref.sample).
  vm_compute. reflexivity.
Defined.

Lemma X14_group_buffer_contents_witness :
  (classifyFiles Ref.env newChart ∅ Ref.sample).1.2 !! "sub"
  = Some (subchartMember
            <$> [ More.subChartYaml;
                  Ref.file "charts/sub/templates/x.yaml" "kind: Secret" ]).
Proof.
  rewrite (X14_group_buffer_contents Ref.env newChart Ref.sample
             (classifyFiles Ref.env newChart ∅ Ref.sample).1.1
             (classifyFiles Ref.env newChart ∅ Ref.sample).1.2 "sub").
  - vm_compute. reflexivity.
  - vm_compute. reflexivity.
Defined.

Lemma X15_groups_nonempty_and_smaller_witness :
  subchartMember
    <$> [ More.subChartYaml;
          Ref.file "charts/sub/templates/x.yaml" "kind: Secret" ] <> []
  /\ namesWeight
       (stripGroup
          (subchartMember
             <$> [ More.subChartYaml;
                   Ref.file "charts/sub/templates/x.yaml" "kind: Secret" ]))
     < namesWeight Ref.sample.
Proof.
  apply (X15_groups_nonempty_and_smaller Ref.env newChart Ref.sample
           (classifyFiles Ref.env newChart ∅ Ref.sample).1.1
           (classifyFiles Ref.env newChart ∅ Ref.sample).1.2 "sub").
  - vm_compute. reflexivity.
  - vm_compute. reflexivity.
Defined.

Lemma X16_group_member_names_witness :
  cutSlash "sub" = ("sub", None)
  /\ ((Name More.subChartYaml = "charts/" +:+ "sub"
       /\ stripGroup [subchartMember More.subChartYaml] = [])
      \/ exists rest,
           Name More.subChartYaml = "charts/" +:+ "sub" +:+ "/" +:+ rest
           /\ stripGroup [subchartMember More.subChartYaml]
              = [mkBufferedFile rest (Data More.subChartYaml)]).
Proof.
  apply (X16_group_member_names More.subChartYaml "sub").
  vm_compute. reflexivity.
Defined.

Lemma X17_metadata_failure_comes_first_witness :
  exists c cause,
    LoadFiles Ref.env More.brokenMetadataLast
    = (c, Some (ErrCannotLoadChartYaml cause))
    /\ Lock c = None /\ Templates c = [] /\ Values c = None
    /\ Schema c = [] /\ Files c = [] /\ Dependencies c = [].
Proof.
  apply (X17_metadata_failure_comes_first Ref.env More.brokenMetadataLast
           [Ref.file "values.yaml" ("- a" +:+ Ref.nl)]
           More.brokenChartYaml []).
  - reflexivity.
  - reflexivity.
  - intros md. vm_compute. discriminate.
Defined.

Lemma X18_subchart_errors_name_their_group_witness :
  "a" = ChartName (LoadFiles Ref.env Ref.strayFile).1
  /\ startsWithUnderscoreOrDot "README.md" = false
  /\ exists members,
       subchartsFrom ∅ Ref.strayFile !! "README.md" = Some members
       /\ ((Ext "README.md" = ".tgz"
            /\ exists file others,
                 members = file :: others /\ Name file = "README.md"
                 /\ LoadArchive Ref.env (Data file) = inl ErrChartYamlMissing)
           \/ (Ext "README.md" <> ".tgz"
               /\ exists sc,
                    LoadFiles Ref.env (stripGroup members)
                    = (sc, Some ErrChartYamlMissing))).
Proof.
  assert (LoadFiles Ref.env Ref.strayFile
          = ((LoadFiles Ref.env Ref.strayFile).1,
             Some (ErrUnpackingSubchart "README.md" "a" ErrChartYamlMissing)))
    as H by (vm_compute; reflexivity).
  exact (proj1 (X18_subchart_errors_name_their_group Ref.env Ref.strayFile
                  _ _ H) "README.md" "a" ErrChartYamlMissing eq_refl).
Defined.

Lemma X19_range_order_independence_witness :
  rangeSubcharts Ref.env (subchartsFrom ∅ Ref.sample)
  <> rangeSubcharts More.envReversed (subchartsFrom ∅ Ref.sample)
  /\ ((LoadFiles Ref.env Ref.sample).2 = None
      <-> (LoadFiles More.envReversed Ref.sample).2 = None).
Proof.
  split; [vm_compute; discriminate|].
  refine (proj1 (X19_range_order_independence Ref.env More.envReversed _
                   Ref.sample)).
  repeat split; intros; reflexivity.
Defined.

Lemma X20_directory_dependency_is_assembled_witness :
  Forall2 (fun g d =>
             Ext g.1 <> ".tgz" ->
             Raw d = toChartFile <$> stripGroup g.2
             /\ Metadata d
                = foldl (decodeChartYaml Ref.env) None
                    (chartYamls (stripGroup g.2))
             /\ Metadata d <> None)
    (filter (fun g => startsWithUnderscoreOrDot g.1 = false)
       (rangeSubcharts Ref.env (subchartsFrom ∅ Ref.sample)))
    (Dependencies (LoadFiles Ref.env Ref.sample).1).
Proof.
  apply (X20_directory_dependency_is_assembled Ref.env Ref.sample).
  vm_compute. reflexivity.
Defined.

Lemma X21_validation_precedes_dependencies_witness :
  Dependencies (LoadFiles Ref.env Ref.sample).1 <> []
  /\ Validate Ref.env
       (mkChart (Raw (LoadFiles Ref.env Ref.sample).1)
          (Metadata (LoadFiles Ref.env Ref.sample).1)
          (Lock (LoadFiles Ref.env Ref.sample).1)
          (Templates (LoadFiles Ref.env Ref.sample).1)
          (Values (LoadFiles Ref.env Ref.sample).1)
          (Schema (LoadFiles Ref.env Ref.sample).1)
          (Files (LoadFiles Ref.env Ref.sample).1) [])
     = None.
Proof.
  split; [vm_compute; discriminate|].
  apply (X21_validation_precedes_dependencies Ref.env Ref.sample).
  vm_compute. reflexivity.
Defined.

Lemma X22_first_bad_document_decides_witness :
  LoadValues Ref.env More.withSequenceDocument
  = inl (ErrCannotUnmarshalYamlDocument
           "json: cannot unmarshal array into Go value of type map[string]interface {}").
Proof.
  apply (X22_first_bad_document_decides Ref.env More.withSequenceDocument
           [Ref.bytes ("a: b" +:+ Ref.nl)]
           [Ref.bytes ("c: d" +:+ Ref.nl +:+ Ref.nl)]
           (Ref.bytes ("- x" +:+ Ref.nl)) None
           [ {[ "a" := VStr "b" ]} ]).
  - vm_compute. reflexivity.
  - vm_compute. repeat constructor.
  - vm_compute. reflexivity.
Defined.

Lemma X9_classification_is_a_partition_witness :
  classifyFile Ref.env newChart ∅ More.subChartYaml
  = (newChart, appendSubchart ∅ "sub" (subchartMember More.subChartYaml), None)
  /\ isReservedName (Name More.subChartYaml) = false
  /\ isTemplate More.subChartYaml = false
  /\ subchartKey More.subChartYaml = Some "sub".
Proof.
  assert (classifyFile Ref.env newChart ∅ More.subChartYaml
          = (newChart,
             appendSubchart ∅ "sub" (subchartMember More.subChartYaml), None))
    as H by (vm_compute; reflexivity).
  split; [exact H|].
  destruct (X9_classification_is_a_partition Ref.env _ _ _ _ _ _ H)
    as [(Hr & _)|[(_ & Ht & _)|[(_ & _ & Hk & _)|(Hr & Ht & n & Hk & _)]]].
  - vm_compute in Hr. discriminate.
  - vm_compute in Ht. discriminate.
  - vm_compute in Hk. discriminate.
  - split; [exact Hr|]. split; [exact Ht|]. vm_compute. reflexivity.
Defined.
